(** * Breast-cancer prediction service: a model of [backend/app.py]

    The Flask application keeps three module-level globals ([model],
    [scaler], [feature_names]), fills them once in [load_model] and then
    serves four JSON endpoints.  Everything numerical is delegated to
    numpy, pandas, scikit-learn and joblib; those libraries are taken as
    parameters here, and the Python glue of [app.py] is what is modelled
    and verified.  The route [/], which serves a static file, is left
    out. *)

From Stdlib Require Import ZArith QArith Qround Ascii String DecimalString.
From stdpp Require Import base option list strings gmap.

Local Open Scope Z_scope.
Local Open Scope string_scope.

(** ** Python values *)

(** Exceptions carry their class name and the text [str(e)] gives.  The
    texts of the interpreter's own errors follow CPython 3.11. *)
Record exn := PyExn { exn_class : string; exn_str : string }.

(** A computation that either raises or returns. *)
Abbreviation result A := (exn + A)%type.

(** The operations of [np.float64] / Python [float] that [app.py] uses. *)
Class PyFloat (F : Type) := {
  of_int : Z → F;            (* int -> float conversion, as in [x * 100] *)
  fmul   : F → F → F;        (* [*] *)
  fround : F → Z → F;        (* [round(x, ndigits)] *)
  fgt    : F → F → bool;     (* [>] *)
  feqb   : F → F → bool      (* [==] *)
}.

(** What [request.get_json()] yields and what [jsonify] takes: the Python
    image of a JSON document. *)
#[local] Set Warnings "-register-all".
Inductive json {F : Type} :=
  | JNull
  | JBool (b : bool)
  | JInt (z : Z)
  | JFloat (x : F)
  | JStr (s : string)
  | JArr (l : list json)
  | JObj (m : gmap string json).
Arguments json : clear implicits.
#[local] Set Warnings "register-all".

(** ** The Python built-ins the handlers rely on *)

Section Builtins.
Context {F : Type} `{!PyFloat F}.

(** Truth value of an object, as tested by [not data]. *)
Definition truthy (v : json F) : bool :=
  match v with
  | JNull => false
  | JBool b => b
  | JInt z => negb (Z.eqb z 0)
  | JFloat x => negb (feqb x (of_int 0))
  | JStr s => negb (String.eqb s "")
  | JArr l => negb (Nat.eqb (length l) 0)
  | JObj m => negb (Nat.eqb (size m) 0)
  end.

(** The name [type(v).__name__] that error messages quote. *)
Definition type_name (v : json F) : string :=
  match v with
  | JNull => "NoneType" | JBool _ => "bool" | JInt _ => "int"
  | JFloat _ => "float" | JStr _ => "str" | JArr _ => "list"
  | JObj _ => "dict"
  end.

Fixpoint substring_of (pat s : string) : bool :=
  String.prefix pat s ||
  match s with
  | EmptyString => false
  | String _ s' => substring_of pat s'
  end.

Definition is_str (k : string) (v : json F) : bool :=
  match v with JStr s => String.eqb s k | _ => false end.

(** [k in v] for a string [k]: key membership on a dict, element
    membership on a list, substring test on a str, [TypeError] on the
    scalars. *)
Definition py_contains (k : string) (v : json F) : result bool :=
  match v with
  | JObj m => inr (bool_decide (is_Some (m !! k)))
  | JArr l => inr (existsb (is_str k) l)
  | JStr s => inr (substring_of k s)
  | _ => inl (PyExn "TypeError"
               ("argument of type '" ++ type_name v ++ "' is not iterable"))
  end.

(** [v[k]] for a string [k]. *)
Definition py_getitem (v : json F) (k : string) : result (json F) :=
  match v with
  | JObj m =>
      match m !! k with
      | Some x => inr x
      | None => inl (PyExn "KeyError" ("'" ++ k ++ "'"))
      end
  | JArr _ =>
      inl (PyExn "TypeError" "list indices must be integers or slices, not str")
  | JStr _ =>
      inl (PyExn "TypeError" "string indices must be integers, not 'str'")
  | _ => inl (PyExn "TypeError"
               ("'" ++ type_name v ++ "' object is not subscriptable"))
  end.

(** A str is held as the bytes of its UTF-8 encoding.  A byte of the form
    [10xxxxxx] continues a character; every other byte starts one. *)
Definition continuation_byte (c : ascii) : bool :=
  match c with
  | Ascii _ _ _ _ _ _ b6 b7 => b7 && negb b6
  end.

(** [len(s)] of a str: its number of characters. *)
Fixpoint py_str_len (s : string) : nat :=
  match s with
  | EmptyString => 0
  | String c s' => (if continuation_byte c then 0 else 1) + py_str_len s'
  end.

(** [len(v)]. *)
Definition py_len (v : json F) : result nat :=
  match v with
  | JArr l => inr (length l)
  | JObj m => inr (size m)
  | JStr s => inr (py_str_len s)
  | _ => inl (PyExn "TypeError"
               ("object of type '" ++ type_name v ++ "' has no len()"))
  end.

(** Decimal rendering of a length inside an f-string. *)
Definition str_of_nat (n : nat) : string :=
  NilEmpty.string_of_uint (Nat.to_uint n).

(** [max(xs)]: the running maximum is replaced only by a strictly
    greater item. *)
Definition py_max (xs : list F) : result F :=
  match xs with
  | [] => inl (PyExn "ValueError" "max() arg is an empty sequence")
  | x :: rest => inr (fold_left (λ m y, if fgt y m then y else m) rest x)
  end.

(** [xs[i]] on a one-dimensional array. *)
Definition py_index {A} (xs : list A) (i : nat) : result A :=
  match xs !! i with
  | Some x => inr x
  | None =>
      inl (PyExn "IndexError"
             ("index " ++ str_of_nat i ++ " is out of bounds for axis 0 with size "
              ++ str_of_nat (length xs)))
  end.
End Builtins.

(** ** The third-party libraries *)

(** [sklearn.datasets.load_breast_cancer()] returns a bunch of which the
    program reads three attributes. *)
Record Bunch (array : Type) := {
  bunch_data : array;
  bunch_target : array;
  bunch_feature_names : list string
}.
Arguments bunch_data {_} _.
Arguments bunch_target {_} _.
Arguments bunch_feature_names {_} _.

(** numpy, pandas and scikit-learn as far as [app.py] calls them.  [array]
    stands for every array-like (ndarray, DataFrame, Series); the two
    estimator types are the Python objects, fitted or not.  Calls that can
    raise on the data of a request return a [result]. *)
Class Libraries (F array StandardScaler LogisticRegression : Type) := {
  (* numpy: [np.array(v).reshape(1, -1)] *)
  np_array_reshape : json F → result array;
  (* sklearn.datasets *)
  load_breast_cancer : Bunch array;
  (* pandas: [pd.DataFrame(data, columns=names)], [df[c] = col],
     [df.drop(columns=c, axis=1)], [df[c]] *)
  pd_DataFrame : array → list string → array;
  df_setitem : array → string → array → array;
  df_drop : array → string → array;
  df_getitem : array → string → array;
  (* sklearn.model_selection: [train_test_split(X, Y, test_size, random_state)] *)
  train_test_split : array → array → Q → Z → array * array * array * array;
  (* sklearn.preprocessing *)
  new_StandardScaler : StandardScaler;
  scaler_fit_transform : StandardScaler → array → result (StandardScaler * array);
  scaler_transform : StandardScaler → array → result array;
  (* sklearn.linear_model *)
  new_LogisticRegression : LogisticRegression;
  clf_fit : LogisticRegression → array → array → result LogisticRegression;
  clf_predict : LogisticRegression → array → result (list Z);
  clf_predict_proba : LogisticRegression → array → result (list (list F))
}.

(** ** Program state *)

Section State.
Context {F array StandardScaler LogisticRegression : Type}.

(** The module-level globals of lines 15-18. *)
Record Globals := {
  model : option LogisticRegression;
  scaler : option StandardScaler;
  feature_names : option (list string)
}.

(** What [joblib.dump] leaves in a file: the serialised object. *)
Inductive pickle :=
  | PickledModel (m : LogisticRegression)
  | PickledScaler (s : StandardScaler).

(** An inference call on an estimator, with its argument. *)
Inductive call :=
  | Transform (x : array)
  | Predict (x : array)
  | PredictProba (x : array).

(** Globals, the files of the working directory, the log of inference
    calls made so far (newest last) and the lines printed. *)
Record world := {
  globals : Globals;
  disk : gmap string pickle;
  calls : list call;
  stdout : list string
}.

(** A statement or expression: it runs in a world, raises or returns,
    and leaves a world. *)
Definition M (A : Type) : Type := world → result A * world.

Definition ret {A} (a : A) : M A := λ w, (inr a, w).
Definition bind {A B} (m : M A) (k : A → M B) : M B :=
  λ w, match m w with
       | (inl e, w') => (inl e, w')
       | (inr a, w') => k a w'
       end.
Definition raise {A} (e : exn) : M A := λ w, (inl e, w).
Definition lift {A} (r : result A) : M A := λ w, (r, w).

(** [try: body except Exception as e: handler(e)] *)
Definition try_except {A} (body : M A) (handler : exn → M A) : M A :=
  λ w, match body w with
       | (inl e, w') => handler e w'
       | (inr a, w') => (inr a, w')
       end.

(** Reading a global. *)
Definition read {A} (f : Globals → A) : M A := λ w, (inr (f (globals w)), w).

(** Assigning a global (a function that declared it [global]). *)
Definition assign (f : Globals → Globals) : M unit :=
  λ w, (inr tt, {| globals := f (globals w); disk := disk w;
                   calls := calls w; stdout := stdout w |}).
Definition set_model (v : option LogisticRegression) (g : Globals) : Globals :=
  {| model := v; scaler := scaler g; feature_names := feature_names g |}.
Definition set_scaler (v : option StandardScaler) (g : Globals) : Globals :=
  {| model := model g; scaler := v; feature_names := feature_names g |}.
Definition set_feature_names (v : option (list string)) (g : Globals) : Globals :=
  {| model := model g; scaler := scaler g; feature_names := v |}.

Definition log (c : call) : M unit :=
  λ w, (inr tt, {| globals := globals w; disk := disk w;
                   calls := calls w ++ [c]; stdout := stdout w |}).

Definition print (s : string) : M unit :=
  λ w, (inr tt, {| globals := globals w; disk := disk w;
                   calls := calls w; stdout := stdout w ++ [s] |}).

(** [joblib.dump(obj, path)]: the file is created or overwritten. *)
Definition joblib_dump (p : pickle) (path : string) : M unit :=
  λ w, (inr tt, {| globals := globals w; disk := <[path := p]> (disk w);
                   calls := calls w; stdout := stdout w |}).
End State.
Arguments Globals : clear implicits.
Arguments pickle : clear implicits.
Arguments call : clear implicits.
Arguments world : clear implicits.
Arguments M : clear implicits.

Notation "x <- m ;; k" := (bind m (λ x, k))
  (at level 100, m at next level, right associativity).
Notation "m ;;; k" := (bind m (λ _, k))
  (at level 100, right associativity).

(** ** The application *)

Record response {F : Type} := { body : json F; status : Z }.
Arguments response : clear implicits.

(** The part of a Flask request the handlers look at: the outcome of
    [request.get_json()]. *)
Record Request {F : Type} := { get_json : result (json F) }.
Arguments Request : clear implicits.

Section App.
Context {F array StandardScaler LogisticRegression : Type}.
Context `{!PyFloat F} `{!Libraries F array StandardScaler LogisticRegression}.

Abbreviation world := (world array StandardScaler LogisticRegression).
Abbreviation M := (M array StandardScaler LogisticRegression).
Abbreviation Globals := (Globals StandardScaler LogisticRegression).

(** [jsonify(d), code]; a bare [jsonify(d)] answers 200. *)
Definition jsonify (d : gmap string (json F)) (code : Z) : response F :=
  {| body := JObj d; status := code |}.

Definition attribute_error {A} (attr : string) : M A :=
  raise (PyExn "AttributeError"
           ("'NoneType' object has no attribute '" ++ attr ++ "'")).

(** [scaler.transform(x)] on the global [scaler]. *)
Definition call_transform (x : array) : M array :=
  s <- read scaler ;;
  match s with
  | None => attribute_error "transform"
  | Some sc => log (Transform x) ;;; lift (scaler_transform sc x)
  end.

(** [model.predict(x)] on the global [model]. *)
Definition call_predict (x : array) : M (list Z) :=
  m <- read model ;;
  match m with
  | None => attribute_error "predict"
  | Some clf => log (Predict x) ;;; lift (clf_predict clf x)
  end.

(** [model.predict_proba(x)] on the global [model]. *)
Definition call_predict_proba (x : array) : M (list (list F)) :=
  m <- read model ;;
  match m with
  | None => attribute_error "predict_proba"
  | Some clf => log (PredictProba x) ;;; lift (clf_predict_proba clf x)
  end.

(** Lines 20-52.  [fit_transform] and [fit] change the estimator object
    the global already refers to; here the global is assigned the fitted
    object once the call has returned. *)
Definition load_model : M unit :=
  let breast_cancer_dataset := load_breast_cancer in
  assign (set_feature_names (Some (bunch_feature_names breast_cancer_dataset))) ;;;
  let data_frame :=
    pd_DataFrame (bunch_data breast_cancer_dataset)
                 (bunch_feature_names breast_cancer_dataset) in
  let data_frame := df_setitem data_frame "label" (bunch_target breast_cancer_dataset) in
  let X := df_drop data_frame "label" in
  let Y := df_getitem data_frame "label" in
  let '(X_train, X_test, Y_train, Y_test) := train_test_split X Y 0.2%Q 2 in
  assign (set_scaler (Some new_StandardScaler)) ;;;
  fitted <- lift (scaler_fit_transform new_StandardScaler X_train) ;;
  let '(sc, X_train_scaled) := fitted in
  assign (set_scaler (Some sc)) ;;;
  log (Transform X_test) ;;;
  X_test_scaled <- lift (scaler_transform sc X_test) ;;
  assign (set_model (Some new_LogisticRegression)) ;;;
  clf <- lift (clf_fit new_LogisticRegression X_train_scaled Y_train) ;;
  assign (set_model (Some clf)) ;;;
  joblib_dump (PickledModel clf) "model.pkl" ;;;
  joblib_dump (PickledScaler sc) "scaler.pkl" ;;;
  print "Model trained and saved successfully!".

(** Lines 124-127: what importing the module does. *)
Definition startup : M unit :=
  print "Loading breast cancer detection model..." ;;;
  load_model ;;;
  print "Model loaded successfully!".

(** The value of the global [feature_names] as [jsonify] sees it. *)
Definition names_value (v : option (list string)) : json F :=
  match v with
  | None => JNull
  | Some l => JArr (JStr <$> l)
  end.

(** Lines 59-65. *)
Definition get_features : M (response F) :=
  names <- read feature_names ;;
  n <- lift (py_len (names_value names)) ;;
  ret (jsonify {[ "features" := names_value names;
                  "count" := JInt (Z.of_nat n) ]} 200).

(** Lines 94-102: the dictionary a successful prediction answers with;
    [p0] and [p1] are [prediction_proba[0]] and [prediction_proba[1]]. *)
Definition result_dict (prediction : Z) (confidence p0 p1 : F)
  : gmap string (json F) :=
  {[ "prediction" := JInt prediction;
     "label" := JStr (if Z.eqb prediction 1 then "Benign" else "Malignant");
     "confidence" := JFloat (fround confidence 2);
     "probabilities" :=
       JObj {[ "malignant" := JFloat (fround (fmul p0 (of_int 100)) 2);
               "benign" := JFloat (fround (fmul p1 (of_int 100)) 2) ]} ]}.

(** Lines 87-104: classification of the scaled input and the answer. *)
Definition classify (input_scaled : array) : M (response F) :=
  predictions <- call_predict input_scaled ;;
  prediction <- lift (py_index predictions 0) ;;
  probas <- call_predict_proba input_scaled ;;
  prediction_proba <- lift (py_index probas 0) ;;
  top <- lift (py_max prediction_proba) ;;
  let confidence := fmul top (of_int 100) in
  p0 <- lift (py_index prediction_proba 0) ;;
  p1 <- lift (py_index prediction_proba 1) ;;
  ret (jsonify (result_dict prediction confidence p0 p1) 200).

(** Lines 81-104: what [predict] does with a feature list that passed
    the two checks. *)
Definition infer (features : json F) : M (response F) :=
  input_array <- lift (np_array_reshape features) ;;
  input_scaled <- call_transform input_array ;;
  classify input_scaled.

(** Lines 71-104: the body of the [try]. *)
Definition predict_body (request : Request F) : M (response F) :=
  data <- lift (get_json request) ;;
  missing <- (if negb (truthy data) then ret true
              else present <- lift (py_contains "features" data) ;;
                   ret (negb present)) ;;
  if missing : bool then
    ret (jsonify {[ "error" := JStr "No features provided" ]} 400)
  else
    features <- lift (py_getitem data "features") ;;
    n <- lift (py_len features) ;;
    if negb (Nat.eqb n 30) then
      ret (jsonify {[ "error" :=
             JStr ("Expected 30 features, got " ++ str_of_nat n) ]} 400)
    else infer features.

(** Lines 67-107. *)
Definition predict (request : Request F) : M (response F) :=
  try_except (predict_body request)
    (λ e, ret (jsonify {[ "error" := JStr (exn_str e) ]} 500)).

(** Line 115: the class listing of [model_info]. *)
Definition classes : list string := ["Malignant (0)"; "Benign (1)"].

(** Lines 109-117. *)
Definition model_info : M (response F) :=
  ret (jsonify
         {[ "model_type" := JStr "Logistic Regression";
            "features_count" := JInt 30;
            "classes" := JArr (JStr <$> classes);
            "description" :=
              JStr "Breast Cancer Detection Model trained on Wisconsin Breast Cancer Dataset" ]}
         200).

(** Lines 119-122. *)
Definition health : M (response F) :=
  m <- read model ;;
  ret (jsonify {[ "status" := JStr "healthy";
                  "model_loaded" := JBool (bool_decide (is_Some m)) ]} 200).

(** The four API routes. *)
Inductive endpoint :=
  | ApiFeatures
  | ApiPredict (request : Request F)
  | ApiModelInfo
  | ApiHealth.

Definition serve (ep : endpoint) : M (response F) :=
  match ep with
  | ApiFeatures => get_features
  | ApiPredict request => predict request
  | ApiModelInfo => model_info
  | ApiHealth => health
  end.
End App.

(** ** Vocabulary of the statements *)

(** A JSON number. *)
Definition is_number {F} (v : json F) : bool :=
  match v with JInt _ | JFloat _ => true | _ => false end.

(** A JSON object without the key ['features']. *)
Definition lacks_features {F} (data : json F) : Prop :=
  ∃ m, data = JObj m ∧ m !! "features" = None.

(** The request has no ['features'] key: its body cannot be parsed, or
    is not a JSON object, or is an object without that key. *)
Definition no_features_key {F} (request : Request F) : Prop :=
  (∃ e, get_json request = inl e) ∨
  ∃ data, get_json request = inr data ∧
          ((∀ m, data ≠ JObj m) ∨ lacks_features data).

(** A JSON object whose ['features'] entry is the list [l]. *)
Definition has_feature_list {F} (data : json F) (l : list (json F)) : Prop :=
  ∃ m, data = JObj m ∧ m !! "features" = Some (JArr l).

(** The field [k] of a response body, when the body is an object. *)
Definition field {F} (r : response F) (k : string) : option (json F) :=
  match body r with JObj m => m !! k | _ => None end.

(** The larger of two numbers the way [max([a, b])] picks it. *)
Definition larger {F} `{!PyFloat F} (a b : F) : F := if fgt b a then b else a.

(** [round(x * 100, 2)], the percentage the response reports for [x]. *)
Definition percent {F} `{!PyFloat F} (x : F) : F := fround (fmul x (of_int 100)) 2.

(** The world a handler leaves when all it did was make the calls [cs]. *)
Definition after_calls {array S L} (w : world array S L) (cs : list (call array))
  : world array S L :=
  {| globals := globals w; disk := disk w; calls := calls w ++ cs; stdout := stdout w |}.

(** Scaling by 100 and rounding keeps the order of [a] and [b]: when [b]
    exceeds [a] its percentage exceeds or equals that of [a], and when it
    does not, neither does its percentage. *)
Definition percent_keeps_order {F} `{!PyFloat F} (a b : F) : Prop :=
  (fgt b a = true → fgt (percent b) (percent a) = true ∨ percent b = percent a) ∧
  (fgt b a = false → fgt (percent b) (percent a) = false).

(** A successful run of lines 81-104, told as a relation: with the globals
    [g], the feature list [features] is turned into an array, scaled by
    the global scaler and classified by the global model; [cs] are the
    estimator calls made, in order, and [resp] is the answer. *)
Section Runs.
Context {F array StandardScaler LogisticRegression : Type}.
Context `{!PyFloat F} `{!Libraries F array StandardScaler LogisticRegression}.

Inductive infers (g : Globals StandardScaler LogisticRegression) (features : json F)
  : list (call array) → response F → Prop :=
  | Infers sc clf input_array input_scaled predictions prediction
           probas prediction_proba top p0 p1 :
      scaler g = Some sc →
      model g = Some clf →
      np_array_reshape features = inr input_array →
      scaler_transform sc input_array = inr input_scaled →
      clf_predict clf input_scaled = inr predictions →
      py_index predictions 0 = inr prediction →
      clf_predict_proba clf input_scaled = inr probas →
      py_index probas 0 = inr prediction_proba →
      py_max prediction_proba = inr top →
      py_index prediction_proba 0 = inr p0 →
      py_index prediction_proba 1 = inr p1 →
      infers g features
        [Transform input_array; Predict input_scaled; PredictProba input_scaled]
        (jsonify (result_dict prediction (fmul top (of_int 100)) p0 p1) 200).

(** A request that passes the two checks of lines 73-79 with the feature
    list [features]. *)
Definition validated (request : Request F) (features : json F) : Prop :=
  ∃ data, get_json request = inr data ∧ truthy data = true ∧
          py_contains "features" data = inr true ∧
          py_getitem data "features" = inr features ∧
          py_len features = inr 30%nat.

(** The classifier is a two-class one: [predict_proba] returns rows of two
    probabilities. *)
Definition two_class : Prop :=
  ∀ (clf : LogisticRegression) (x : array) probas row,
    clf_predict_proba clf x = inr probas → row ∈ probas → length row = 2%nat.

(** A computation that only reads the globals and calls the estimators:
    run in two worlds with the same globals it has the same outcome and
    makes the same calls, and it changes nothing but the call log. *)
Definition reads_only {A} (m : M array StandardScaler LogisticRegression A) : Prop :=
  ∀ w1 w2, globals w1 = globals w2 →
    ∃ r cs, m w1 = (r, after_calls w1 cs) ∧ m w2 = (r, after_calls w2 cs).

(** The worlds in which requests are served: the one the import of the
    module leaves when [load_model] went through, and every world a served
    request leaves. *)
Inductive running : world array StandardScaler LogisticRegression → Prop :=
  | running_start w0 w : startup w0 = (inr tt, w) → running w
  | running_served (ep : endpoint (F:=F)) w : running w → running (serve ep w).2.

(** The worlds reached from [w] by serving requests one after another. *)
Inductive served_from (w : world array StandardScaler LogisticRegression)
  : world array StandardScaler LogisticRegression → Prop :=
  | served_none : served_from w w
  | served_next (ep : endpoint (F:=F)) w' :
      served_from w w' → served_from w (serve ep w').2.

(** [sc] and [clf] are the estimators lines 24-46 fit: the scaler on the
    training part of the split, the classifier on the scaled training
    features and the training labels. *)
Definition trained (sc : StandardScaler) (clf : LogisticRegression) : Prop :=
  let dataset := load_breast_cancer in
  let data_frame :=
    df_setitem (pd_DataFrame (bunch_data dataset) (bunch_feature_names dataset))
               "label" (bunch_target dataset) in
  ∃ X_train X_test Y_train Y_test X_train_scaled,
    train_test_split (df_drop data_frame "label") (df_getitem data_frame "label")
                     0.2%Q 2
      = (X_train, X_test, Y_train, Y_test) ∧
    scaler_fit_transform new_StandardScaler X_train = inr (sc, X_train_scaled) ∧
    clf_fit new_LogisticRegression X_train_scaled Y_train = inr clf.

(** The two answers with status 400. *)
Definition no_features : response F :=
  jsonify {[ "error" := JStr "No features provided" ]} 400.
Definition wrong_length (n : nat) : response F :=
  jsonify {[ "error" := JStr ("Expected 30 features, got " ++ str_of_nat n) ]} 400.

(** The answer of the [except] clause to the exception [e]. *)
Definition error_500 (e : exn) : response F :=
  jsonify {[ "error" := JStr (exn_str e) ]} 500.
End Runs.

(** ** A small instance of the libraries

    Numbers are decimals with six places, held as an integer count of
    millionths; the estimators are a centring scaler and a threshold
    classifier.  The instance serves to run the handlers on concrete
    requests. *)
Module Demo.

Definition unit_ : Z := 1000000.

#[export] Instance demo_float : PyFloat Z := {
  of_int n := n * unit_;
  fmul a b := (a * b) / unit_;
  fround x nd := let q := 10 ^ (6 - nd) in ((x + q / 2) / q) * q;
  fgt a b := Z.gtb a b;
  feqb a b := Z.eqb a b
}.

Inductive array :=
  | Num (rows : list (list Z))                       (* numeric table *)
  | Labelled (rows : list (list Z)) (label : list Z) (* table with a 'label' column *)
  | Col (xs : list Z)                                (* one column *)
  | Obj (v : json Z).                                (* array of str or object dtype *)

(** Fitted state of the centring scaler: the column means. *)
Definition Scaler := option (list Z).
(** Fitted state of the classifier: a threshold on the row sum. *)
Definition Classifier := option Z.

Definition cell (v : json Z) : option Z :=
  match v with
  | JInt z => Some (z * unit_)
  | JFloat x => Some x
  | JBool b => Some (if b then unit_ else 0)
  | _ => None
  end.

(** A flat list of numbers becomes one numeric row; anything else becomes
    an array that holds the objects as they are. *)
Definition demo_array (v : json Z) : result array :=
  match v with
  | JArr l =>
      match mapM cell l with
      | Some xs => inr (Num [xs])
      | None => inr (Obj v)
      end
  | _ => inr (Obj v)
  end.

Definition sum_list (xs : list Z) : Z := fold_right Z.add 0 xs.

Definition column_means (rows : list (list Z)) : list Z :=
  match rows with
  | [] => []
  | r :: _ =>
      imap (λ j _, sum_list (omap (λ row, row !! j) rows) / Z.of_nat (length rows)) r
  end.

Definition centre (mu : list Z) (row : list Z) : list Z := zip_with Z.sub row mu.

Definition not_numeric : exn :=
  PyExn "ValueError" "dtype='numeric' is not compatible with arrays of bytes/strings.Convert your data to numeric values explicitly instead.".

(** The largest float64, in millionths.  A JSON number beyond it is read
    as infinity, which the scaler refuses. *)
Definition float64_max : Z := (2 ^ 1024 - 2 ^ 971) * unit_.
Definition finite (x : Z) : bool := Z.leb (Z.abs x) float64_max.

Definition too_large : exn :=
  PyExn "ValueError" "Input X contains infinity or a value too large for dtype('float64').".

Definition demo_transform (s : Scaler) (x : array) : result array :=
  match s, x with
  | None, _ => inl (PyExn "NotFittedError" "This StandardScaler instance is not fitted yet.")
  | Some mu, Num rows =>
      if negb (forallb (forallb finite) rows) then inl too_large
      else if forallb (λ r, Nat.eqb (length r) (length mu)) rows
      then inr (Num (centre mu <$> rows))
      else inl (PyExn "ValueError" "X has a different number of features than StandardScaler is expecting.")
  | Some _, _ => inl not_numeric
  end.

Definition demo_fit_transform (s : Scaler) (x : array) : result (Scaler * array) :=
  match x with
  | Num rows =>
      let mu := column_means rows in inr (Some mu, Num (centre mu <$> rows))
  | _ => inl not_numeric
  end.

Definition demo_fit (c : Classifier) (x y : array) : result Classifier :=
  match x, y with
  | Num _, Col _ => inr (Some 0)
  | _, _ => inl not_numeric
  end.

Definition demo_predict (c : Classifier) (x : array) : result (list Z) :=
  match c, x with
  | None, _ => inl (PyExn "NotFittedError" "This LogisticRegression instance is not fitted yet.")
  | Some t, Num rows => inr ((λ r, if Z.gtb (sum_list r) t then 1 else 0) <$> rows)
  | Some _, _ => inl not_numeric
  end.

Definition demo_predict_proba (c : Classifier) (x : array) : result (list (list Z)) :=
  match c, x with
  | None, _ => inl (PyExn "NotFittedError" "This LogisticRegression instance is not fitted yet.")
  | Some t, Num rows =>
      inr ((λ r, if Z.gtb (sum_list r) t then [123456; 876544] else [876544; 123456])
             <$> rows)
  | Some _, _ => inl not_numeric
  end.

(** With [test_size=0.2] a fifth of the rows, rounded up, is held out. *)
Definition demo_split (x y : array) (test_size : Q) (random_state : Z)
  : array * array * array * array :=
  match x, y with
  | Num rows, Col ys =>
      let k := Z.to_nat (Qceiling (test_size * inject_Z (Z.of_nat (length rows)))) in
      (Num (drop k rows), Num (take k rows), Col (drop k ys), Col (take k ys))
  | _, _ => (x, x, y, y)
  end.

Definition demo_dataset : Bunch array := {|
  bunch_data := Num ((λ k, replicate 30 (k * unit_)) <$> [1; 2; 3; 4; 5]);
  bunch_target := Col [0; 0; 0; 1; 1];
  bunch_feature_names := (λ k, "feature " ++ str_of_nat k) <$> seq 0 30
|}.

#[export] Instance demo_libraries : Libraries Z array Scaler Classifier := {
  np_array_reshape := demo_array;
  load_breast_cancer := demo_dataset;
  pd_DataFrame a _ := a;
  df_setitem a _ col :=
    match a, col with Num rows, Col xs => Labelled rows xs | _, _ => a end;
  df_drop a _ := match a with Labelled rows _ => Num rows | _ => a end;
  df_getitem a _ := match a with Labelled _ xs => Col xs | _ => a end;
  train_test_split := demo_split;
  new_StandardScaler := None;
  scaler_fit_transform := demo_fit_transform;
  scaler_transform := demo_transform;
  new_LogisticRegression := None;
  clf_fit := demo_fit;
  clf_predict := demo_predict;
  clf_predict_proba := demo_predict_proba
}.

(** The world of a freshly started interpreter, before line 126 runs. *)
Definition fresh : world array Scaler Classifier := {|
  globals := {| model := None; scaler := None; feature_names := None |};
  disk := ∅; calls := []; stdout := []
|}.

(** The world once the module has been imported. *)
Definition serving : world array Scaler Classifier := (startup fresh).2.

Definition post (v : json Z) : Request Z := {| get_json := inr v |}.

(** Thirty features of value 2.5. *)
Definition good_features : list (json Z) := replicate 30 (JFloat 2500000).
(** Twenty-nine numbers and a string. *)
Definition mixed_features : list (json Z) := replicate 29 (JInt 1) ++ [JStr "abc"].

Definition good_request : Request Z := post (JObj {[ "features" := JArr good_features ]}).
Definition mixed_request : Request Z := post (JObj {[ "features" := JArr mixed_features ]}).
Definition short_request : Request Z := post (JObj {[ "features" := JArr [JInt 1; JInt 2] ]}).
Definition empty_request : Request Z := post (JObj {[ "patient" := JStr "x" ]}).
(** A list that starts with [null]. *)
Definition null_features : json Z := JArr (JNull :: replicate 29 (JInt 1)).
Definition null_request : Request Z := post (JObj {[ "features" := null_features ]}).

(** What the service is expected to answer to [good_request], and the
    world it is expected to leave. *)
Definition good_input : array := Num [replicate 30 2500000].
Definition good_scaled : array := Num [replicate 30 (-1000000)].
Definition good_answer : response Z :=
  jsonify (result_dict 0 (fmul 876544 (of_int 100)) 876544 123456) 200.
Definition good_world : world array Scaler Classifier :=
  after_calls serving [Transform good_input; Predict good_scaled; PredictProba good_scaled].


(** The split of the demo dataset and the estimators fitted on it. *)
Definition demo_X_train : array := Num ((λ k, replicate 30 (k * unit_)) <$> [2; 3; 4; 5]).
Definition demo_X_test : array := Num [replicate 30 unit_].
Definition demo_Y_train : array := Col [0; 0; 1; 1].
Definition demo_Y_test : array := Col [0].
Definition demo_X_train_scaled : array :=
  Num ((λ k, replicate 30 k) <$> [-1500000; -500000; 500000; 1500000]).
Definition demo_X_test_scaled : array := Num [replicate 30 (-2500000)].
Definition demo_scaler : Scaler := Some (replicate 30 3500000).
Definition demo_classifier : Classifier := Some 0.

(** The same libraries with a dataset whose target column cannot be
    used: the scaler is fitted, the fit of the classifier raises. *)
Definition broken_libraries : Libraries Z array Scaler Classifier := {|
  np_array_reshape := demo_array;
  load_breast_cancer :=
    {| bunch_data := bunch_data demo_dataset;
       bunch_target := Obj (JStr "?");
       bunch_feature_names := bunch_feature_names demo_dataset |};
  pd_DataFrame a _ := a;
  df_setitem a _ col :=
    match a, col with Num rows, Col xs => Labelled rows xs | _, _ => a end;
  df_drop a _ := match a with Labelled rows _ => Num rows | _ => a end;
  df_getitem a _ := match a with Labelled _ xs => Col xs | _ => a end;
  train_test_split x y _ _ := (x, x, y, y);
  new_StandardScaler := None;
  scaler_fit_transform := demo_fit_transform;
  scaler_transform := demo_transform;
  new_LogisticRegression := None;
  clf_fit := demo_fit;
  clf_predict := demo_predict;
  clf_predict_proba := demo_predict_proba
|}.

(** A working directory that already holds a file. *)
Definition cluttered : world array Scaler Classifier := {|
  globals := {| model := None; scaler := None; feature_names := None |};
  disk := {[ "old.pkl" := PickledScaler (Some [1; 2; 3]) ]};
  calls := []; stdout := []
|}.

(** A body whose ['features'] entry is a string of three characters. *)
Definition string_request : Request Z := post (JObj {[ "features" := JStr "abc" ]}).
(** A body whose ['features'] entry is [null]. *)
Definition none_request : Request Z := post (JObj {[ "features" := JNull ]}).
(** A body that is a list naming 'features'. *)
Definition list_request : Request Z := post (JArr [JStr "features"]).
(** A body that is [true]. *)
Definition true_request : Request Z := post (JBool true).
(** A body whose ['features'] entry is a string of fifteen two-byte
    characters. *)
Definition accent_request : Request Z :=
  post (JObj {[ "features" := JStr "ééééééééééééééé" ]}).
(** The number [1e400] followed by twenty-nine ones. *)
Definition huge_features : list (json Z) :=
  JFloat (10 ^ 400 * unit_) :: replicate 29 (JInt 1).
Definition huge_request : Request Z := post (JObj {[ "features" := JArr huge_features ]}).
Definition huge_input : array := Num [10 ^ 400 * unit_ :: replicate 29 unit_].

End Demo.


(** * Properties *)

Section Frame.
Context {F array StandardScaler LogisticRegression : Type}.
Context `{!PyFloat F} `{!Libraries F array StandardScaler LogisticRegression}.

Abbreviation world' := (world array StandardScaler LogisticRegression).
Abbreviation M' := (M array StandardScaler LogisticRegression).
Abbreviation Globals' := (Globals StandardScaler LogisticRegression).

Lemma after_calls_nil (w : world') : after_calls w [] = w.
Proof. destruct w; unfold after_calls; simpl. by rewrite app_nil_r. Qed.

Lemma after_calls_app (w : world') cs1 cs2 :
  after_calls (after_calls w cs1) cs2 = after_calls w (cs1 ++ cs2).
Proof. unfold after_calls; simpl. by rewrite app_assoc. Qed.

Lemma reads_only_ret {A} (a : A) : reads_only (ret a : M' A).
Proof. intros w1 w2 _. exists (inr a), []. by rewrite !after_calls_nil. Qed.

Lemma reads_only_raise {A} (e : exn) : reads_only (raise e : M' A).
Proof. intros w1 w2 _. exists (inl e), []. by rewrite !after_calls_nil. Qed.

Lemma reads_only_lift {A} (r : result A) : reads_only (lift r : M' A).
Proof. intros w1 w2 _. exists r, []. by rewrite !after_calls_nil. Qed.

Lemma reads_only_read {A} (f : Globals' → A) : reads_only (read f : M' A).
Proof.
  intros w1 w2 Hg. exists (inr (f (globals w1))), [].
  rewrite !after_calls_nil. unfold read. by rewrite Hg.
Qed.

Lemma reads_only_log (c : call array) : reads_only (log c : M' unit).
Proof. intros w1 w2 _. by exists (inr tt), [c]. Qed.

Lemma reads_only_bind {A B} (m : M' A) (k : A → M' B) :
  reads_only m → (∀ a, reads_only (k a)) → reads_only (bind m k).
Proof.
  intros Hm Hk w1 w2 Hg. unfold bind.
  destruct (Hm w1 w2 Hg) as (r & cs & -> & ->).
  destruct r as [e|a]; [by exists (inl e), cs|].
  destruct (Hk a (after_calls w1 cs) (after_calls w2 cs) Hg) as (r' & cs' & -> & ->).
  exists r', (cs ++ cs')%list. by rewrite !after_calls_app.
Qed.

Lemma reads_only_try_except {A} (body : M' A) (handler : exn → M' A) :
  reads_only body → (∀ e, reads_only (handler e)) →
  reads_only (try_except body handler).
Proof.
  intros Hm Hk w1 w2 Hg. unfold try_except.
  destruct (Hm w1 w2 Hg) as (r & cs & -> & ->).
  destruct r as [e|a]; [|by exists (inr a), cs].
  destruct (Hk e (after_calls w1 cs) (after_calls w2 cs) Hg) as (r' & cs' & -> & ->).
  exists r', (cs ++ cs')%list. by rewrite !after_calls_app.
Qed.

Create HintDb reads discriminated.
#[local] Hint Resolve reads_only_ret reads_only_raise reads_only_lift
  reads_only_read reads_only_log : reads.

(** Decompose a handler along its binds, branches and matches. *)
Ltac reads_only_tac :=
  repeat first
    [ progress eauto with reads
    | apply reads_only_try_except; [|intros ?]
    | apply reads_only_bind; [|intros ?]
    | match goal with
      | |- reads_only (if ?b then _ else _) => destruct b
      | |- reads_only (match ?x with _ => _ end) => destruct x
      end ].

Lemma reads_only_get_features : reads_only (get_features : M' (response F)).
Proof. unfold get_features. reads_only_tac. Qed.

Lemma reads_only_classify x : reads_only (classify x).
Proof.
  unfold classify, call_predict, call_predict_proba, attribute_error.
  reads_only_tac.
Qed.

Lemma reads_only_infer features : reads_only (infer features).
Proof.
  unfold infer, call_transform, attribute_error.
  reads_only_tac; apply reads_only_classify.
Qed.

Lemma reads_only_predict request : reads_only (predict request).
Proof.
  unfold predict, predict_body.
  reads_only_tac; apply reads_only_infer.
Qed.

Lemma reads_only_model_info : reads_only (model_info : M' (response F)).
Proof. unfold model_info. reads_only_tac. Qed.

Lemma reads_only_health : reads_only (health : M' (response F)).
Proof. unfold health. reads_only_tac. Qed.

Lemma reads_only_serve ep : reads_only (serve ep).
Proof.
  destruct ep; simpl;
    auto using reads_only_get_features, reads_only_predict,
      reads_only_model_info, reads_only_health.
Qed.
End Frame.

Section Pipeline.
Context {F array StandardScaler LogisticRegression : Type}.
Context `{!PyFloat F} `{!Libraries F array StandardScaler LogisticRegression}.

Implicit Types (w : world array StandardScaler LogisticRegression).
Implicit Types (request : Request F) (features data : json F) (resp : response F).

Lemma object_nonempty (m : gmap string (json F)) k v :
  m !! k = Some v → truthy (JObj m) = true.
Proof.
  intros Hk. simpl. apply negb_true_iff, Nat.eqb_neq.
  apply map_size_non_empty_iff. intros ->. by rewrite lookup_empty in Hk.
Qed.

Lemma validated_object request (m : gmap string (json F)) features :
  get_json request = inr (JObj m) → m !! "features" = Some features →
  py_len features = inr 30%nat → validated request features.
Proof.
  intros Hj Hk Hn. exists (JObj m). split_and!; try done.
  - by eapply object_nonempty.
  - simpl. by rewrite Hk.
  - simpl. by rewrite Hk.
Qed.

(** Past the checks, [predict_body] is [infer]. *)
Lemma predict_body_validated request features w :
  validated request features → predict_body request w = infer features w.
Proof.
  intros (data & Hj & Ht & Hc & Hg & Hn).
  unfold predict_body, bind, lift, ret. by rewrite Hj, Ht, Hc, Hg, Hn.
Qed.

Lemma infer_success w features cs resp :
  infers (globals w) features cs resp →
  infer features w = (inr resp, after_calls w cs).
Proof.
  intros [sc clf a a' ys y ps row top p0 p1 Hs Hm Ha Ht Hy Hy0 Hp Hp0 Htop H0 H1].
  unfold infer, classify, call_transform, call_predict, call_predict_proba,
    bind, lift, read, log, ret.
  simpl.
  repeat (progress rewrite ?Hs, ?Hm, ?Ha, ?Ht, ?Hy, ?Hy0, ?Hp, ?Hp0, ?Htop, ?H0, ?H1;
          simpl).
  unfold after_calls. by rewrite <- !app_assoc.
Qed.

Lemma infer_inv w features resp w' :
  infer features w = (inr resp, w') →
  ∃ cs, infers (globals w) features cs resp ∧ w' = after_calls w cs.
Proof.
  unfold infer, classify, call_transform, call_predict, call_predict_proba,
    attribute_error, bind, lift, read, log, ret, raise.
  simpl. intros H.
  repeat (case_match; simplify_eq/=).
  eexists; split; [by econstructor|].
  unfold after_calls. by rewrite <- !app_assoc.
Qed.

(** A valid request on which inference succeeds is answered with the
    response of the run. *)
Lemma predict_ok request features w cs resp :
  validated request features → infers (globals w) features cs resp →
  predict request w = (inr resp, after_calls w cs).
Proof.
  intros Hv Hi. unfold predict, try_except.
  by rewrite (predict_body_validated _ _ _ Hv), (infer_success _ _ _ _ Hi).
Qed.

(** A valid request on which inference raises is answered by the
    [except] clause. *)
Lemma predict_raise request features w e w1 :
  validated request features → infer features w = (inl e, w1) →
  predict request w = (inr (error_500 e), w1).
Proof.
  intros Hv Hi. unfold predict, try_except.
  by rewrite (predict_body_validated _ _ _ Hv), Hi.
Qed.

(** Every answer with status 200 comes from a validated request and a
    successful run of the inference. *)
Lemma predict_200_inv request w resp w' :
  predict request w = (inr resp, w') → status resp = 200 →
  ∃ features cs, validated request features ∧
                 infers (globals w) features cs resp ∧ w' = after_calls w cs.
Proof.
  unfold predict, try_except. intros H Hst.
  destruct (predict_body request w) as [[e|r] w1] eqn:Hb.
  { unfold ret in H. by simplify_eq/=. }
  simplify_eq. revert Hb. unfold predict_body, bind, lift, ret. intros Hb.
  destruct (get_json request) as [|data] eqn:Hj; [done|].
  destruct (truthy data) eqn:Ht; simpl in Hb; [|by simplify_eq/=].
  destruct (py_contains "features" data) as [|[|]] eqn:Hc; simpl in Hb;
    [done| |by simplify_eq/=].
  destruct (py_getitem data "features") as [|features] eqn:Hg; [done|].
  destruct (py_len features) as [|n] eqn:Hn; [done|].
  destruct (Nat.eqb n 30) eqn:Hn30; simpl in Hb; [|by simplify_eq/=].
  apply Nat.eqb_eq in Hn30 as ->.
  apply infer_inv in Hb as (cs & Hi & ->).
  exists features, cs. split_and!; try done. by exists data.
Qed.

(** [predict] never lets an exception escape. *)
Lemma predict_answers request w : ∃ resp w', predict request w = (inr resp, w').
Proof.
  unfold predict, try_except.
  destruct (predict_body request w) as [[e|r] w1]; unfold ret; eauto.
Qed.
End Pipeline.

Section Claims.
Context {F array StandardScaler LogisticRegression : Type}.
Context `{!PyFloat F} `{!Libraries F array StandardScaler LogisticRegression}.

Implicit Types (w : world array StandardScaler LogisticRegression).
Implicit Types (request : Request F) (features data : json F) (resp : response F).

Lemma field_prediction y c (p0 p1 : F) code :
  field (jsonify (result_dict y c p0 p1) code) "prediction" = Some (JInt y).
Proof. reflexivity. Qed.

Lemma field_label y c (p0 p1 : F) code :
  field (jsonify (result_dict y c p0 p1) code) "label"
  = Some (JStr (if Z.eqb y 1 then "Benign" else "Malignant")).
Proof. reflexivity. Qed.

Lemma field_confidence y c (p0 p1 : F) code :
  field (jsonify (result_dict y c p0 p1) code) "confidence"
  = Some (JFloat (fround c 2)).
Proof. reflexivity. Qed.

Lemma field_probabilities y c (p0 p1 : F) code :
  field (jsonify (result_dict y c p0 p1) code) "probabilities"
  = Some (JObj {[ "malignant" := JFloat (percent p0);
                  "benign" := JFloat (percent p1) ]}).
Proof. reflexivity. Qed.

Lemma py_index_Some {A} (xs : list A) i x : py_index xs i = inr x ↔ xs !! i = Some x.
Proof. unfold py_index. destruct (xs !! i); split; intros; by simplify_eq. Qed.

(** C1, as the code has it.  A POST to /api/predict whose JSON body
    carries a ['features'] list of exactly 30 numbers which numpy, the
    loaded scaler and the loaded classifier accept (their calls return,
    with one label and a row of two class probabilities per sample), is
    answered with status 200 and an object holding the integer
    ['prediction'], a ['label'] that is 'Malignant' or 'Benign', a number
    ['confidence'] and a ['probabilities'] object with the entries
    'malignant' and 'benign'. *)
Theorem predict_thirty_numbers request data (l : list (json F)) w
    sc clf a a' y ys p0 p1 rest rows :
  get_json request = inr data → has_feature_list data l →
  length l = 30%nat → forallb is_number l = true →
  scaler (globals w) = Some sc → model (globals w) = Some clf →
  np_array_reshape (JArr l) = inr a →
  scaler_transform sc a = inr a' →
  clf_predict clf a' = inr (y :: ys) →
  clf_predict_proba clf a' = inr ((p0 :: p1 :: rest) :: rows) →
  ∃ resp w',
    predict request w = (inr resp, w') ∧ status resp = 200 ∧
    field resp "prediction" = Some (JInt y) ∧
    (field resp "label" = Some (JStr "Malignant") ∨
     field resp "label" = Some (JStr "Benign")) ∧
    (∃ c, field resp "confidence" = Some (JFloat c)) ∧
    (∃ pm pb, field resp "probabilities"
              = Some (JObj {[ "malignant" := JFloat pm; "benign" := JFloat pb ]})).
Proof.
  intros Hj (m & -> & Hm) Hlen _ Hs Hc Ha Ht Hy Hp.
  assert (Hv : validated request (JArr l)).
  { eapply validated_object; [done..|]. simpl. by rewrite Hlen. }
  assert (Hi : infers (globals w) (JArr l)
                 [Transform a; Predict a'; PredictProba a']
                 (jsonify (result_dict y
                    (fmul (fold_left (λ m y, if fgt y m then y else m) (p1 :: rest) p0)
                          (of_int 100)) p0 p1) 200)).
  { by econstructor. }
  eexists _, _. split; [by apply (predict_ok _ _ _ _ _ Hv Hi)|].
  split; [done|]. split; [apply field_prediction|].
  split; [rewrite field_label; destruct (Z.eqb y 1); auto|].
  split; [rewrite field_confidence; eauto|].
  rewrite field_probabilities; eauto.
Qed.

(** Contradiction between the branch taken and what is assumed of the
    body. *)
Ltac clash :=
  simplify_eq/=;
  repeat match goal with
         | H : negb _ = true |- _ => apply negb_true_iff in H
         | H : negb _ = false |- _ => apply negb_false_iff in H
         end;
  repeat match goal with
         | H : ?x = true, H' : context [?x] |- _ => rewrite H in H'; simpl in H'
         | H : ?x = false, H' : context [?x] |- _ => rewrite H in H'; simpl in H'
         end;
  simplify_eq/=; try done; try congruence.

(** C2, as the code has it.  A POST to /api/predict that has no
    ['features'] key, or whose ['features'] list has a length other than
    30, is answered with an error message and the world left as it was, so
    neither the scaler nor the classifier is called.  The status is 400
    when the body is empty, or is an object without the key or with a list
    of the wrong length, or is a list or string in which 'features' does
    not occur; it is 500 when the body cannot be parsed, and when it is a
    number, a boolean, or a list or string in which 'features' occurs. *)
Theorem predict_rejects_bad_shape request w :
  no_features_key request ∨
    (∃ data l, get_json request = inr data ∧
               has_feature_list data l ∧ length l ≠ 30%nat) →
  ∃ resp msg,
    predict request w = (inr resp, w) ∧
    calls (predict request w).2 = calls w ∧
    body resp = JObj {[ "error" := JStr msg ]} ∧
    (status resp = 400 ∨ status resp = 500) ∧
    (∀ data, get_json request = inr data →
       truthy data = false ∨ lacks_features data ∨
       py_contains "features" data = inr false ∨
       (∃ l, has_feature_list data l ∧ length l ≠ 30%nat) →
       status resp = 400) ∧
    ((∃ e, get_json request = inl e) ∨
     (∃ data, get_json request = inr data ∧ truthy data = true ∧
              (∀ m, data ≠ JObj m) ∧ py_contains "features" data ≠ inr false) →
     status resp = 500).
Proof.
  intros Hbad.
  assert (Hcases :
    (∃ e, get_json request = inl e) ∨
    ∃ data, get_json request = inr data ∧
      ((∀ m, data ≠ JObj m) ∨ lacks_features data ∨
       ∃ l, has_feature_list data l ∧ length l ≠ 30%nat)).
  { destruct Hbad as [[He | (data & Hj & [Hn | Hl])] | (data & l & Hj & Hl)]; eauto 10. }
  clear Hbad. unfold predict, try_except, predict_body, bind, lift, ret.
  destruct Hcases as [(e & Hj) | (data & Hj & Hshape)]; rewrite Hj.
  { eexists _, _. split; [reflexivity|]. split; [reflexivity|].
    split; [reflexivity|]. split; [by right|]. split; [|done].
    intros data [=]. }
  destruct Hshape as [Hn | [(m & -> & Hm) | (l & (m & -> & Hm) & Hlen)]].
  - destruct data as [|b|z|x|str|l|m]; try (by destruct (Hn m)); simpl.
    all: repeat match goal with
         | |- context [if ?c then _ else _] => destruct c eqn:?; simpl
         end.
    all: eexists _, _; (split; [reflexivity|]); (split; [reflexivity|]);
         (split; [reflexivity|]); (split; [by auto|]); simpl.
    all: split; try done.
    all: try (intros data' [= <-];
              intros [Ht | [(m' & [=] & _) | [Hc | (l' & (m' & [=] & _) & _)]]];
              by clash).
    all: intros [(e' & [=]) | (data' & [= <-] & Ht & _ & Hc)]; by clash.
  - assert (Hc : py_contains "features" (JObj m) = inr false)
      by (simpl; by rewrite Hm).
    destruct (truthy (JObj m)) eqn:Ht; simpl; rewrite ?Hm; simpl.
    all: eexists _, _; (split; [reflexivity|]); (split; [reflexivity|]);
         (split; [reflexivity|]); (split; [by auto|]); simpl.
    all: split; [done|].
    all: intros [(e' & [=]) | (data' & [= <-] & _ & Hobj & _)];
         by destruct (Hobj m).
  - rewrite (object_nonempty _ _ _ Hm). simpl. rewrite Hm. simpl.
    apply Nat.eqb_neq in Hlen. rewrite Hlen. simpl.
    eexists _, _. split; [reflexivity|]. split; [reflexivity|].
    split; [reflexivity|]. split; [by auto|]. simpl. split; [done|].
    intros [(e' & [=]) | (data' & [= <-] & _ & Hobj & _)].
    by destruct (Hobj m).
Qed.

(** C3, as the code has it.  The only checks are that ['features'] is
    present and has length 30; the elements are not looked at.  A list of
    length 30, numeric or not, is handed to numpy and, once numpy has built
    an array from it, to the transform of the loaded scaler; when that
    transform raises, the answer is status 500 with the message of the
    exception. *)
Theorem predict_checks_length_only request data (l : list (json F)) w sc a :
  get_json request = inr data → has_feature_list data l → length l = 30%nat →
  scaler (globals w) = Some sc → np_array_reshape (JArr l) = inr a →
  (∃ resp cs, predict request w = (inr resp, after_calls w (Transform a :: cs))) ∧
  (∀ e, scaler_transform sc a = inl e →
        predict request w = (inr (error_500 e), after_calls w [Transform a])).
Proof.
  intros Hj (m & -> & Hm) Hlen Hs Ha.
  assert (Hv : validated request (JArr l)).
  { eapply validated_object; [done..|]. simpl. by rewrite Hlen. }
  unfold predict, try_except. rewrite (predict_body_validated _ _ w Hv).
  unfold infer, call_transform, bind, lift, read, log. rewrite Ha, Hs.
  change {| globals := globals w; disk := disk w;
            calls := calls w ++ [Transform a]; stdout := stdout w |}
    with (after_calls w [Transform a]).
  destruct (scaler_transform sc a) as [e|a'] eqn:Ht.
  { split; [|intros ? [= <-]]; unfold ret, error_500; eauto. }
  split; [|done].
  destruct (reads_only_classify a' (after_calls w [Transform a])
              (after_calls w [Transform a]) eq_refl) as (r & cs & -> & _).
  rewrite after_calls_app. simpl.
  destruct r as [e|resp]; unfold ret; eauto.
Qed.
(** C4.  Whenever /api/predict answers with a prediction, the label and
    the probabilities in the answer are what the classifier's [predict] and
    [predict_proba] returned for the array that the scaler's [transform]
    produced from the submitted features; the estimator calls of the
    request are exactly the transform of the input array followed by the
    two classifier calls on the transformed array. *)
Theorem predict_classifies_scaled_input request w resp w' :
  predict request w = (inr resp, w') → status resp = 200 →
  ∃ features sc clf a a' ys y ps row p0 p1,
    validated request features ∧
    np_array_reshape features = inr a ∧
    scaler (globals w) = Some sc ∧ scaler_transform sc a = inr a' ∧
    model (globals w) = Some clf ∧
    clf_predict clf a' = inr ys ∧ ys !! 0%nat = Some y ∧
    clf_predict_proba clf a' = inr ps ∧ ps !! 0%nat = Some row ∧
    row !! 0%nat = Some p0 ∧ row !! 1%nat = Some p1 ∧
    field resp "prediction" = Some (JInt y) ∧
    field resp "label" = Some (JStr (if Z.eqb y 1 then "Benign" else "Malignant")) ∧
    field resp "probabilities"
      = Some (JObj {[ "malignant" := JFloat (percent p0);
                      "benign" := JFloat (percent p1) ]}) ∧
    calls w' = (calls w ++ [Transform a; Predict a'; PredictProba a'])%list.
Proof.
  intros H Hst.
  destruct (predict_200_inv _ _ _ _ H Hst) as (features & cs & Hv & Hi & ->).
  destruct Hi as [sc clf a a' ys y ps row top p0 p1 Hs Hm Ha Ht Hy Hy0 Hp Hp0 Htop H0 H1].
  apply py_index_Some in Hy0, Hp0, H0, H1.
  exists features, sc, clf, a, a', ys, y, ps, row, p0, p1.
  split_and!; try done.
Qed.

(** C5.  Serving a request on any of the four API routes leaves the
    globals [model], [scaler] and [feature_names] as they were; the answer
    depends on the request and the globals only, so the same request asked
    again gets the same answer. *)
Theorem endpoints_stateless (ep : endpoint (F:=F)) w :
  globals (serve ep w).2 = globals w ∧
  (∀ w2, globals w2 = globals w → (serve ep w2).1 = (serve ep w).1) ∧
  (serve ep (serve ep w).2).1 = (serve ep w).1.
Proof.
  assert (Hframe : globals (serve ep w).2 = globals w).
  { destruct (reads_only_serve ep w w eq_refl) as (r & cs & -> & _). done. }
  assert (Hdet : ∀ w2, globals w2 = globals w → (serve ep w2).1 = (serve ep w).1).
  { intros w2 Hg.
    destruct (reads_only_serve ep w2 w Hg) as (r & cs & -> & ->). done. }
  split_and!; [done|done|]. by apply Hdet.
Qed.

(** C6.  [load_model] loads the breast-cancer dataset, splits features and
    labels into a training and a test part, fits the scaler on the
    training features and the classifier on the scaled training features
    and the training labels, keeps both in the globals and writes both to
    disk, the classifier to [model.pkl] and the scaler to [scaler.pkl]. *)
Theorem load_model_trains_and_saves w X_train X_test Y_train Y_test
    sc X_train_scaled X_test_scaled clf :
  let dataset := load_breast_cancer in
  let data_frame :=
    df_setitem (pd_DataFrame (bunch_data dataset) (bunch_feature_names dataset))
               "label" (bunch_target dataset) in
  train_test_split (df_drop data_frame "label") (df_getitem data_frame "label")
                   0.2%Q 2
    = (X_train, X_test, Y_train, Y_test) →
  scaler_fit_transform new_StandardScaler X_train = inr (sc, X_train_scaled) →
  scaler_transform sc X_test = inr X_test_scaled →
  clf_fit new_LogisticRegression X_train_scaled Y_train = inr clf →
  ∃ w', load_model w = (inr tt, w') ∧
        globals w' = {| model := Some clf; scaler := Some sc;
                        feature_names := Some (bunch_feature_names dataset) |} ∧
        disk w' = <["scaler.pkl" := PickledScaler sc]>
                    (<["model.pkl" := PickledModel clf]> (disk w)).
Proof.
  intros dataset data_frame Hsplit Hfit Htest Hclf.
  unfold load_model. fold dataset. fold data_frame. rewrite Hsplit.
  unfold bind, assign, lift, log, joblib_dump, print. simpl.
  rewrite Hfit, Htest, Hclf. simpl. eauto.
Qed.


(** C8.  With a two-class classifier, the ['confidence'] of an answer is
    the percentage (times 100, rounded to two places) of the larger of the
    two class probabilities, the two reported entries are the percentages
    of the two probabilities, and, rounding keeping their order, the
    confidence is the larger of the two reported entries. *)
Theorem confidence_is_larger_percentage request w resp w' :
  two_class →
  predict request w = (inr resp, w') → status resp = 200 →
  ∃ clf x rows p0 p1,
    model (globals w) = Some clf ∧
    clf_predict_proba clf x = inr ([p0; p1] :: rows) ∧
    field resp "confidence" = Some (JFloat (fround (fmul (larger p0 p1) (of_int 100)) 2)) ∧
    field resp "probabilities"
      = Some (JObj {[ "malignant" := JFloat (percent p0);
                      "benign" := JFloat (percent p1) ]}) ∧
    (percent_keeps_order p0 p1 →
     fround (fmul (larger p0 p1) (of_int 100)) 2 = larger (percent p0) (percent p1)).
Proof.
  intros Htwo H Hst.
  destruct (predict_200_inv _ _ _ _ H Hst) as (features & cs & _ & Hi & _).
  destruct Hi as [sc clf a a' ys y ps row top p0 p1 Hs Hm Ha Ht Hy Hy0 Hp Hp0 Htop H0 H1].
  apply py_index_Some in Hp0, H0, H1.
  assert (Hrow : row = [p0; p1]).
  { assert (Hlen : length row = 2%nat).
    { eapply Htwo; [done|]. by eapply list_elem_of_lookup_2. }
    destruct row as [|q0 [|q1 [|]]]; simplify_eq/=. done. }
  subst row. destruct ps as [|? rows]; simplify_eq/=.
  exists clf, a', rows, p0, p1. split_and!; try done.
  intros [Hgt Hle]. fold (percent (larger p0 p1)).
  unfold larger. destruct (fgt p1 p0) eqn:Hcmp.
  - destruct (Hgt eq_refl) as [-> | Heq]; [done|].
    rewrite Heq. by destruct (fgt (percent p0) (percent p0)).
  - by rewrite (Hle eq_refl).
Qed.

Lemma load_model_loaded w0 w :
  load_model w0 = (inr tt, w) →
  ∃ clf sc, globals w = {| model := Some clf; scaler := Some sc;
                           feature_names := Some (bunch_feature_names load_breast_cancer) |}.
Proof.
  unfold load_model.
  destruct (train_test_split _ _ _ _) as [[[X_train X_test] Y_train] Y_test].
  unfold bind, assign, lift, log, joblib_dump, print. simpl. intros H.
  repeat (case_match; simplify_eq/=). eauto.
Qed.

(** Requests are only ever served with all three globals set. *)
Lemma running_loaded w :
  running w →
  ∃ clf sc names, globals w = {| model := Some clf; scaler := Some sc;
                                 feature_names := Some names |}.
Proof.
  induction 1 as [w0 w Hstart | ep w _ IH].
  - revert Hstart. unfold startup, bind, print. simpl.
    destruct (load_model _) as [[e|[]] w1] eqn:Hload; [done|].
    intros [= <-]. simpl.
    apply load_model_loaded in Hload as (clf & sc & ->). eauto.
  - destruct (reads_only_serve ep w w eq_refl) as (r & cs & -> & _). done.
Qed.

(** C9.  Every GET /api/features served by the running application is
    answered with status 200, a ['features'] list and a ['count'] equal to
    the length of that list. *)
Theorem features_count_is_length w :
  running w →
  ∃ (resp : response F) l,
    get_features w = (inr resp, w) ∧ status resp = 200 ∧
    field resp "features" = Some (JArr l) ∧
    field resp "count" = Some (JInt (Z.of_nat (length l))).
Proof.
  intros (clf & sc & names & Hg)%running_loaded.
  unfold get_features, bind, read, lift, ret. rewrite Hg. simpl.
  eexists _, _. split_and!; reflexivity.
Qed.

(** C10.  When a request has passed the checks and a later step raises,
    /api/predict answers with status 500 and an ['error'] field holding
    the message of the exception, and the globals are as they were. *)
Theorem predict_reports_exception request features w e w1 :
  validated request features → infer features w = (inl e, w1) →
  ∃ resp,
    predict request w = (inr resp, w1) ∧ status resp = 500 ∧
    field resp "error" = Some (JStr (exn_str e)) ∧
    globals w1 = globals w.
Proof.
  intros Hv Hi. exists (error_500 e).
  split; [by eapply predict_raise|]. split_and!; try reflexivity.
  destruct (reads_only_infer features w w eq_refl) as (r & cs & Hr & _).
  rewrite Hi in Hr. by simplify_eq.
Qed.
End Claims.

(** * Further properties of the handlers and of [load_model] *)

Section Further.
Context {F array StandardScaler LogisticRegression : Type}.
Context `{!PyFloat F} `{!Libraries F array StandardScaler LogisticRegression}.

Implicit Types (w : world array StandardScaler LogisticRegression).
Implicit Types (request : Request F) (features data : json F) (resp : response F).

(** The three ways in which the body of the [try] returns. *)
Lemma predict_body_returns request w resp w' :
  predict_body request w = (inr resp, w') →
  (resp = no_features ∧ w' = w ∧
   ∃ data, get_json request = inr data ∧
           (truthy data = false ∨ py_contains "features" data = inr false)) ∨
  (∃ data features n,
     get_json request = inr data ∧ py_getitem data "features" = inr features ∧
     py_len features = inr n ∧ n ≠ 30%nat ∧ resp = wrong_length n ∧ w' = w) ∨
  (∃ features cs,
     validated request features ∧ infers (globals w) features cs resp ∧
     w' = after_calls w cs).
Proof.
  unfold predict_body, bind, lift, ret. intros Hb.
  destruct (get_json request) as [|data] eqn:Hj; [done|].
  destruct (truthy data) eqn:Ht; simpl in Hb; [|left; simplify_eq; eauto 10].
  destruct (py_contains "features" data) as [|[|]] eqn:Hc; simpl in Hb;
    [done| |left; simplify_eq; eauto 10].
  destruct (py_getitem data "features") as [|features] eqn:Hg; [done|].
  destruct (py_len features) as [|n] eqn:Hn; [done|].
  destruct (Nat.eqb n 30) eqn:Hn30; simpl in Hb.
  - apply Nat.eqb_eq in Hn30 as ->.
    apply infer_inv in Hb as (cs & Hi & ->).
    right; right. exists features, cs. split_and!; try done. by exists data.
  - apply Nat.eqb_neq in Hn30. right; left. simplify_eq.
    exists data, features, n. done.
Qed.

Lemma infers_status g features cs resp :
  infers g features cs resp → status resp = 200.
Proof. by intros []. Qed.

(** X1.  [predict] never lets an exception out: every request is answered,
    with status 200, 400 or 500, and an answer with status 400 or 500 is an
    object whose only entry is an ['error'] string. *)
Theorem predict_status_cases request w :
  ∃ resp w',
    predict request w = (inr resp, w') ∧
    (status resp = 200 ∨
     (status resp = 400 ∨ status resp = 500) ∧
     ∃ msg, body resp = JObj {[ "error" := JStr msg ]}).
Proof.
  unfold predict, try_except.
  destruct (predict_body request w) as [[e|r] w1] eqn:Hb.
  { eexists _, _. split; [done|]. right. split; [by right|]. by eexists. }
  exists r, w1. split; [done|].
  destruct (predict_body_returns _ _ _ _ Hb)
    as [(-> & _) | [(data & fs & n & _ & _ & _ & _ & -> & _) | (fs & cs & _ & Hi & _)]].
  - right. split; [by left|]. by eexists.
  - right. split; [by left|]. by eexists.
  - left. by eapply infers_status.
Qed.

(** X2.  An answer with status 400 is one of the two rejections of lines
    73-79: either the body was empty or had no ['features'], or
    ['features'] had a length [n] other than 30, which the message
    reports.  In both cases the world is left exactly as it was. *)
Theorem predict_400_inv request w resp w' :
  predict request w = (inr resp, w') → status resp = 400 →
  w' = w ∧
  (resp = no_features ∨
   ∃ data features n,
     get_json request = inr data ∧ py_getitem data "features" = inr features ∧
     py_len features = inr n ∧ n ≠ 30%nat ∧ resp = wrong_length n).
Proof.
  unfold predict, try_except. intros H Hst.
  destruct (predict_body request w) as [[e|r] w1] eqn:Hb.
  { unfold ret in H. by simplify_eq/=. }
  simplify_eq.
  destruct (predict_body_returns _ _ _ _ Hb)
    as [(-> & -> & _) | [(data & fs & n & ? & ? & ? & ? & -> & ->) | (fs & cs & _ & Hi & _)]].
  - auto.
  - split; [done|]. right. by exists data, fs, n.
  - apply infers_status in Hi. congruence.
Qed.

(** X3.  The length check looks at [len(features)] whatever ['features']
    is: for a JSON object whose ['features'] entry is a list, a string or
    an object of length [n], the answer has status 400 exactly when [n] is
    not 30, and then it is the message naming [n], with the world left as
    it was. *)
Theorem predict_length_check request (m : gmap string (json F)) features n w :
  get_json request = inr (JObj m) → m !! "features" = Some features →
  py_len features = inr n →
  ∃ resp w',
    predict request w = (inr resp, w') ∧
    (status resp = 400 ↔ n ≠ 30%nat) ∧
    (n ≠ 30%nat → resp = wrong_length n ∧ w' = w).
Proof.
  intros Hj Hm Hn.
  destruct (decide (n = 30%nat)) as [->|Hne].
  - assert (Hv : validated request features) by by eapply validated_object.
    unfold predict, try_except. rewrite (predict_body_validated _ _ w Hv).
    destruct (infer features w) as [[e|r] w1] eqn:Hi.
    + eexists _, _. split; [done|]. split; [|done]. simpl. split; [done|lia].
    + exists r, w1. split; [done|]. split; [|done].
      apply infer_inv in Hi as (cs & Hi%infers_status & _). rewrite Hi.
      split; [done|lia].
  - exists (wrong_length n), w. split; [|done].
    unfold predict, try_except, predict_body, bind, lift, ret.
    rewrite Hj, (object_nonempty _ _ _ Hm). simpl. rewrite Hm. simpl. rewrite Hn.
    apply Nat.eqb_neq in Hne. by rewrite Hne.
Qed.

(** X4.  A body that is not a JSON object never gets a prediction: the
    answer is the "No features provided" rejection or has status 500, and
    the world is left as it was.  It has status 500 whenever the body is
    not empty and the test ['features' not in data] does not come out
    true: for a number or boolean the test raises, for a list or string
    that contains 'features' the subscript [data['features']] raises. *)
Theorem predict_non_object_body request data w :
  get_json request = inr data → (∀ m, data ≠ JObj m) →
  ∃ resp,
    predict request w = (inr resp, w) ∧
    (resp = no_features ∨ status resp = 500) ∧
    (truthy data = true → py_contains "features" data ≠ inr false →
     status resp = 500).
Proof.
  intros Hj Hobj.
  unfold predict, try_except, predict_body, bind, lift, ret. rewrite Hj.
  destruct data as [|b|z|x|s|l|m]; try (by destruct (Hobj m)); simpl.
  - eexists. split; [done|]. split; [by left|done].
  - destruct b; simpl; eexists; (split; [done|]); split; auto; done.
  - destruct (Z.eqb z 0); simpl; eexists; (split; [done|]); split; auto; done.
  - destruct (feqb x (of_int 0)); simpl; eexists; (split; [done|]); split; auto; done.
  - destruct (String.eqb s ""); simpl; [eexists; split; [done|]; split; auto; done|].
    destruct (substring_of "features" s); simpl;
      eexists; (split; [done|]); split; auto; done.
  - destruct (Nat.eqb (length l) 0); simpl; [eexists; split; [done|]; split; auto; done|].
    destruct (existsb (is_str "features") l); simpl;
      eexists; (split; [done|]); split; auto; done.
Qed.

(** X5.  When the ['features'] entry of the body is [null], a boolean or a
    number, [len(features)] raises and the answer is status 500 with the
    message "object of type '...' has no len()"; the world is left as it
    was. *)
Theorem predict_features_without_len request (m : gmap string (json F)) features w :
  get_json request = inr (JObj m) → m !! "features" = Some features →
  match features with JArr _ | JStr _ | JObj _ => False | _ => True end →
  predict request w
  = (inr (error_500 (PyExn "TypeError"
            ("object of type '" ++ type_name features ++ "' has no len()"))), w).
Proof.
  intros Hj Hm Hscalar.
  unfold predict, try_except, predict_body, bind, lift, ret.
  rewrite Hj, (object_nonempty _ _ _ Hm). simpl. rewrite Hm. simpl.
  by destruct features.
Qed.

(** Two worlds that differ in how the call log is bracketed. *)
Ltac world_eq :=
  unfold after_calls; simpl; rewrite <- ?app_assoc; simpl; reflexivity.

(** The estimator calls of lines 81-104, in every outcome. *)
Lemma infer_calls features w :
  ∃ cs,
    (infer features w).2 = after_calls w cs ∧
    (cs = [] ∨
     ∃ sc a, scaler (globals w) = Some sc ∧ np_array_reshape features = inr a ∧
       (cs = [Transform a] ∨
        ∃ a', scaler_transform sc a = inr a' ∧
              (cs = [Transform a; Predict a'] ∨
               cs = [Transform a; Predict a'; PredictProba a']))).
Proof.
  unfold infer, bind at 1, lift at 1.
  destruct (np_array_reshape features) as [e|a] eqn:Ha.
  { exists []. rewrite after_calls_nil. auto. }
  unfold bind at 1, call_transform, bind, read, attribute_error, raise, log, lift.
  destruct (scaler (globals w)) as [sc|] eqn:Hs; simpl.
  2:{ exists []. rewrite after_calls_nil. auto. }
  destruct (scaler_transform sc a) as [e|a'] eqn:Ht.
  { exists [Transform a]. split; [done|]. right. exists sc, a. auto. }
  unfold classify, call_predict, call_predict_proba, bind, read, attribute_error,
    raise, log, lift, ret. simpl.
  destruct (model (globals w)) as [clf|] eqn:Hm; simpl.
  2:{ exists [Transform a]. split; [done|]. right. exists sc, a. auto. }
  destruct (clf_predict clf a') as [e|ys]; simpl;
    [exists [Transform a; Predict a']; split; [world_eq|];
     right; exists sc, a; split_and!; try done; right; exists a'; auto|].
  destruct (py_index ys 0) as [e|y]; simpl;
    [exists [Transform a; Predict a']; split; [world_eq|];
     right; exists sc, a; split_and!; try done; right; exists a'; auto|].
  exists [Transform a; Predict a'; PredictProba a']. split.
  - rewrite Hm. simpl. repeat case_match; world_eq.
  - right. exists sc, a. split_and!; try done. right. exists a'. auto.
Qed.

(** Either the request passes the checks and the body of the [try] goes on
    with [infer], or it ends with the world as it was. *)
Lemma predict_body_world request w :
  (∃ features, validated request features ∧
               predict_body request w = infer features w) ∨
  (predict_body request w).2 = w.
Proof.
  unfold predict_body, bind, lift, ret.
  destruct (get_json request) as [|data] eqn:Hj; [by right|].
  destruct (truthy data) eqn:Ht; simpl; [|by right].
  destruct (py_contains "features" data) as [|[|]] eqn:Hc; simpl;
    [by right| |by right].
  destruct (py_getitem data "features") as [|features] eqn:Hg; [by right|].
  destruct (py_len features) as [|n] eqn:Hn; [by right|].
  destruct (Nat.eqb n 30) eqn:Hn30; simpl; [|by right].
  apply Nat.eqb_eq in Hn30 as ->. left. exists features. split; [|done].
  by exists data.
Qed.

Lemma predict_world request w : (predict request w).2 = (predict_body request w).2.
Proof.
  unfold predict, try_except. by destruct (predict_body request w) as [[e|r] w1].
Qed.

(** X6.  Whatever the outcome of a request to /api/predict, the estimator
    calls it makes are a prefix of: the scaler's [transform] on the array
    numpy built from the submitted features, then [predict] and
    [predict_proba] on what that transform returned.  The classifier is
    never called before the scaler, and never on anything but the
    scaler's output. *)
Theorem predict_call_order request w :
  ∃ cs,
    (predict request w).2 = after_calls w cs ∧
    (cs = [] ∨
     ∃ features sc a,
       validated request features ∧ scaler (globals w) = Some sc ∧
       np_array_reshape features = inr a ∧
       (cs = [Transform a] ∨
        ∃ a', scaler_transform sc a = inr a' ∧
              (cs = [Transform a; Predict a'] ∨
               cs = [Transform a; Predict a'; PredictProba a']))).
Proof.
  rewrite predict_world.
  destruct (predict_body_world request w) as [(features & Hv & ->) | ->].
  - destruct (infer_calls features w) as (cs & Hw & [-> | (sc & a & Hs & Ha & Hcs)]).
    + exists []. auto.
    + exists cs. split; [done|]. right. by exists features, sc, a.
  - exists []. rewrite after_calls_nil. auto.
Qed.

(** X7.  Serving a request never writes a file and never prints; estimator
    calls are only ever added to the log, and the routes other than
    /api/predict add none. *)
Theorem serve_touches_only_call_log (ep : endpoint (F:=F)) w :
  disk (serve ep w).2 = disk w ∧ stdout (serve ep w).2 = stdout w ∧
  ∃ cs, calls (serve ep w).2 = (calls w ++ cs)%list ∧
        ((∀ request, ep ≠ ApiPredict request) → cs = []).
Proof.
  destruct ep as [|request| |]; simpl.
  - unfold get_features, bind, read, lift, ret.
    destruct (py_len _); simpl; split_and!; try done;
      exists []; by rewrite app_nil_r.
  - destruct (reads_only_predict request w w eq_refl) as (r & cs & -> & _).
    simpl. split_and!; try done. exists cs. split; [done|].
    intros Hne. by destruct (Hne request).
  - split_and!; try done. exists []. by rewrite app_nil_r.
  - split_and!; try done. exists []. by rewrite app_nil_r.
Qed.

(** X8.  The answer to a request does not depend on the requests served
    before it: in a world reached by serving any sequence of requests, the
    globals and the files are as at the start and every request is
    answered as it would have been at the start. *)
Theorem answers_independent_of_history w w' :
  served_from w w' →
  globals w' = globals w ∧ disk w' = disk w ∧
  ∀ ep : endpoint (F:=F), (serve ep w').1 = (serve ep w).1.
Proof.
  induction 1 as [|ep0 w' _ (Hg & Hd & Hans)].
  - done.
  - destruct (reads_only_serve ep0 w' w' eq_refl) as (r & cs & Hr & _).
    rewrite Hr. simpl. split_and!; try done.
    intros ep. rewrite <- Hans.
    destruct (reads_only_serve ep (after_calls w' cs) w' eq_refl)
      as (r' & cs' & -> & ->). done.
Qed.

(** ** [load_model] and the running application *)

(** What a run of [load_model] that returns has done. *)
Lemma load_model_inv w0 w :
  load_model w0 = (inr tt, w) →
  ∃ sc clf X_test,
    trained sc clf ∧
    globals w = {| model := Some clf; scaler := Some sc;
                   feature_names := Some (bunch_feature_names load_breast_cancer) |} ∧
    disk w = <["scaler.pkl" := PickledScaler sc]>
               (<["model.pkl" := PickledModel clf]> (disk w0)) ∧
    calls w = (calls w0 ++ [Transform X_test])%list ∧
    stdout w = (stdout w0 ++ ["Model trained and saved successfully!"])%list.
Proof.
  unfold load_model, trained.
  destruct (train_test_split _ _ _ _) as [[[X_train X_test] Y_train] Y_test].
  unfold bind, assign, lift, log, joblib_dump, print. simpl. intros H.
  repeat (case_match; simplify_eq/=).
  eexists _, _, _. split; [by eexists _, _, _, _, _|done].
Qed.

(** X9.  While the application runs, the globals hold the scaler and the
    classifier that were fitted at import on the training part of the
    dataset, and [model.pkl] and [scaler.pkl] hold these same two
    objects. *)
Theorem running_serves_trained_estimators w :
  running w →
  ∃ sc clf,
    trained sc clf ∧
    model (globals w) = Some clf ∧ scaler (globals w) = Some sc ∧
    disk w !! "model.pkl" = Some (PickledModel clf) ∧
    disk w !! "scaler.pkl" = Some (PickledScaler sc).
Proof.
  induction 1 as [w0 w Hstart | ep w _ (sc & clf & Ht & Hm & Hs & Hdm & Hds)].
  - revert Hstart. unfold startup, bind, print. simpl.
    destruct (load_model _) as [[e|[]] w1] eqn:Hload; [done|].
    intros [= <-]. simpl.
    apply load_model_inv in Hload as (sc & clf & X_test & Ht & -> & -> & _).
    exists sc, clf. split_and!; try done.
    + rewrite lookup_insert_ne by done. apply lookup_insert_eq.
    + apply lookup_insert_eq.
  - destruct (reads_only_serve ep w w eq_refl) as (r & cs & -> & _).
    exists sc, clf. done.
Qed.

Lemma running_names w :
  running w →
  feature_names (globals w) = Some (bunch_feature_names load_breast_cancer).
Proof.
  induction 1 as [w0 w Hstart | ep w _ IH].
  - revert Hstart. unfold startup, bind, print. simpl.
    destruct (load_model _) as [[e|[]] w1] eqn:Hload; [done|].
    intros [= <-]. simpl.
    by apply load_model_loaded in Hload as (clf & sc & ->).
  - by destruct (reads_only_serve ep w w eq_refl) as (r & cs & -> & _).
Qed.

(** X10.  While the application runs, /api/health answers with status
    200, ['status'] 'healthy' and ['model_loaded'] true. *)
Theorem health_while_running w :
  running w →
  health w = (inr (jsonify {[ "status" := JStr "healthy";
                              "model_loaded" := JBool true ]} 200 : response F), w).
Proof.
  intros (clf & sc & names & Hg)%running_loaded.
  unfold health, bind, read, ret. by rewrite Hg.
Qed.

(** X11.  While the application runs, /api/features answers with the
    feature names of the dataset, in the dataset's order, and their
    number. *)
Theorem get_features_while_running w :
  running w →
  let names := bunch_feature_names load_breast_cancer in
  get_features w
  = (inr (jsonify {[ "features" := JArr (JStr <$> names);
                     "count" := JInt (Z.of_nat (length names)) ]} 200 : response F), w).
Proof.
  intros Hn%running_names names.
  unfold get_features, bind, read, lift, ret. rewrite Hn. simpl.
  by rewrite length_fmap.
Qed.

(** X12.  When [load_model] raises, no file has been written and nothing
    has been printed, while the global [feature_names] is already set to
    the names of the dataset: the two [joblib.dump] calls and the [print]
    come after every step that can fail. *)
Theorem load_model_failure w e w' :
  load_model w = (inl e, w') →
  disk w' = disk w ∧ stdout w' = stdout w ∧
  feature_names (globals w') = Some (bunch_feature_names load_breast_cancer).
Proof.
  unfold load_model.
  destruct (train_test_split _ _ _ _) as [[[X_train X_test] Y_train] Y_test].
  unfold bind, assign, lift, log, joblib_dump, print. simpl. intros H.
  repeat (case_match; simplify_eq/=); done.
Qed.

(** X13.  Whatever its outcome, [load_model] leaves every file other than
    [model.pkl] and [scaler.pkl] as it was. *)
Theorem load_model_other_files w (path : string) :
  path ≠ "model.pkl" → path ≠ "scaler.pkl" →
  disk (load_model w).2 !! path = disk w !! path.
Proof.
  intros Hm Hs. unfold load_model.
  destruct (train_test_split _ _ _ _) as [[[X_train X_test] Y_train] Y_test].
  unfold bind, assign, lift, log, joblib_dump, print. simpl.
  repeat (case_match; simplify_eq/=); try done.
  by rewrite !lookup_insert_ne.
Qed.

(** X14.  Running [load_model] again after a run that returned succeeds
    again and changes neither the globals nor the files: the same
    estimators are fitted and the two files are overwritten with the same
    content. *)
Theorem load_model_again w w1 :
  load_model w = (inr tt, w1) →
  ∃ w2, load_model w1 = (inr tt, w2) ∧
        globals w2 = globals w1 ∧ disk w2 = disk w1.
Proof.
  unfold load_model.
  destruct (train_test_split _ _ _ _) as [[[X_train X_test] Y_train] Y_test].
  unfold bind, assign, lift, log, joblib_dump, print. simpl.
  destruct (scaler_fit_transform _ _) as [|[sc Xs]]; [done|]. simpl.
  destruct (scaler_transform sc X_test) as [|Xt]; [done|]. simpl.
  destruct (clf_fit _ _ _) as [|clf]; [done|]. simpl.
  intros [= <-]. eexists. split; [done|]. simpl. split; [done|].
  apply map_eq. intros path. rewrite !lookup_insert.
  by repeat case_decide.
Qed.

(** ** The answers of [predict] *)

(** X15.  With a two-class classifier the ['confidence'] of a prediction
    is always one of the two reported percentages, the ['malignant'] or
    the ['benign'] entry, whatever the order of the two probabilities. *)
Theorem confidence_is_an_entry request w resp w' :
  two_class →
  predict request w = (inr resp, w') → status resp = 200 →
  ∃ c pm pb,
    field resp "confidence" = Some (JFloat c) ∧
    field resp "probabilities"
      = Some (JObj {[ "malignant" := JFloat pm; "benign" := JFloat pb ]}) ∧
    (c = pm ∨ c = pb).
Proof.
  intros Htwo H Hst.
  destruct (predict_200_inv _ _ _ _ H Hst) as (features & cs & _ & Hi & _).
  destruct Hi as [sc clf a a' ys y ps row top p0 p1 Hs Hm Ha Ht Hy Hy0 Hp Hp0 Htop H0 H1].
  apply py_index_Some in Hp0, H0, H1.
  assert (Hlen : length row = 2%nat).
  { eapply Htwo; [done|]. by eapply list_elem_of_lookup_2. }
  destruct row as [|q0 [|q1 [|]]]; simplify_eq/=.
  eexists _, _, _. split; [apply field_confidence|].
  split; [apply field_probabilities|].
  unfold percent. destruct (fgt p1 p0); auto.
Qed.


Lemma validated_not_400 request features w :
  validated request features →
  ∃ resp w', predict request w = (inr resp, w') ∧
             (status resp = 200 ∨ status resp = 500).
Proof.
  intros Hv. unfold predict, try_except. rewrite (predict_body_validated _ _ w Hv).
  destruct (infer features w) as [[e|r] w1] eqn:Hi.
  - eexists _, _. split; [done|]. by right.
  - exists r, w1. split; [done|]. left.
    by apply infer_inv in Hi as (cs & Hi%infers_status & _).
Qed.

Lemma wrong_length_rejected request (m : gmap string (json F)) features n w :
  get_json request = inr (JObj m) → m !! "features" = Some features →
  py_len features = inr n → n ≠ 30%nat →
  predict request w = (inr (wrong_length n), w).
Proof.
  intros Hj Hm Hn Hne.
  unfold predict, try_except, predict_body, bind, lift, ret.
  rewrite Hj, (object_nonempty _ _ _ Hm). simpl. rewrite Hm. simpl. rewrite Hn.
  apply Nat.eqb_neq in Hne. by rewrite Hne.
Qed.

(** X17.  The ['features_count'] that /api/model-info advertises is the
    length /api/predict insists on: a request with a ['features'] list is
    rejected with status 400 exactly when the length of the list differs
    from it. *)
Theorem model_info_features_count_agrees request (m : gmap string (json F)) l w :
  get_json request = inr (JObj m) → m !! "features" = Some (JArr l) →
  ∃ (info : response F) n resp w',
    model_info w = (inr info, w) ∧
    field info "features_count" = Some (JInt n) ∧
    predict request w = (inr resp, w') ∧
    (status resp = 400 ↔ Z.of_nat (length l) ≠ n).
Proof.
  intros Hj Hm.
  eexists _, 30. unfold model_info at 1, ret at 1.
  destruct (decide (length l = 30%nat)) as [Hlen|Hne].
  - assert (Hv : validated request (JArr l)).
    { eapply validated_object; [done..|]. simpl. by rewrite Hlen. }
    destruct (validated_not_400 _ _ w Hv) as (resp & w' & Hp & Hst).
    exists resp, w'. split_and!; try done.
    split; [destruct Hst as [-> | ->]; done|lia].
  - exists (wrong_length (length l)), w. split_and!; try done.
    + by eapply wrong_length_rejected.
    + split; [lia|done].
Qed.

(** X18.  A client can tell a prediction from a failure by the ['error']
    field alone: the answer of /api/predict has an ['error'] entry
    exactly when its status is not 200, and a ['prediction'] entry exactly
    when it is. *)
Theorem error_field_iff_failure request w resp w' :
  predict request w = (inr resp, w') →
  (is_Some (field resp "error") ↔ status resp ≠ 200) ∧
  (is_Some (field resp "prediction") ↔ status resp = 200).
Proof.
  unfold predict, try_except. intros H.
  assert (Hcases : (∃ msg code, code ≠ 200 ∧
                      resp = jsonify {[ "error" := JStr msg ]} code) ∨
                   (∃ y c p0 p1, resp = jsonify (result_dict y c p0 p1) 200)).
  { destruct (predict_body request w) as [[e|r] w1] eqn:Hb.
    { unfold ret in H. simplify_eq. left. by eexists _, 500. }
    simplify_eq.
    destruct (predict_body_returns _ _ _ _ Hb)
      as [(-> & _) | [(data & fs & n & _ & _ & _ & _ & -> & _) | (fs & cs & _ & Hi & _)]].
    - left. by eexists _, 400.
    - left. by eexists _, 400.
    - destruct Hi. right. by eexists _, _, _, _. }
  destruct Hcases as [(msg & code & Hcode & ->) | (y & c & p0 & p1 & ->)].
  - change (field (jsonify {[ "error" := JStr msg ]} code) "error")
      with (Some (JStr msg : json F)).
    change (field (jsonify {[ "error" := JStr msg ]} code) "prediction")
      with (None : option (json F)).
    simpl. split; split; intros Hx; try done; try (by eexists);
      by destruct Hx as [? [=]].
  - rewrite field_prediction.
    change (field (jsonify (result_dict y c p0 p1) 200) "error")
      with (None : option (json F)).
    simpl. split; split; intros Hx; try done; try (by eexists);
      by destruct Hx as [? [=]].
Qed.
End Further.

(** * The properties on concrete requests *)

Import Demo.

Example startup_fresh : startup fresh = (inr tt, serving).
Proof. vm_compute. reflexivity. Qed.

Example good_request_answer :
  predict good_request serving = (inr good_answer, good_world).
Proof. vm_compute. reflexivity. Qed.


Example short_request_answer :
  predict short_request serving
  = (inr (jsonify {[ "error" := JStr "Expected 30 features, got 2" ]} 400), serving).
Proof. vm_compute. reflexivity. Qed.

Example empty_request_answer :
  predict empty_request serving
  = (inr (jsonify {[ "error" := JStr "No features provided" ]} 400), serving).
Proof. vm_compute. reflexivity. Qed.

(** A body that is not an object has no keys; a non-empty one makes the
    membership test or the subscript raise, which the [except] clause
    answers. *)
Example scalar_body_answer :
  predict (post (JInt 5)) serving
  = (inr (error_500 (PyExn "TypeError" "argument of type 'int' is not iterable")),
     serving).
Proof. vm_compute. reflexivity. Qed.

Lemma demo_two_class : two_class.
Proof.
  intros [t|] x probas row Hp Hin; destruct x as [rows| | |]; simplify_eq/=.
  apply list_elem_of_fmap in Hin as (r & -> & _).
  by destruct (Z.gtb (sum_list r) t).
Qed.

Lemma predict_thirty_numbers_witness :
  ∃ resp w',
    predict good_request serving = (inr resp, w') ∧ status resp = 200 ∧
    field resp "prediction" = Some (JInt 0) ∧
    (field resp "label" = Some (JStr "Malignant") ∨
     field resp "label" = Some (JStr "Benign")) ∧
    (∃ c, field resp "confidence" = Some (JFloat c)) ∧
    (∃ pm pb, field resp "probabilities"
              = Some (JObj {[ "malignant" := JFloat pm; "benign" := JFloat pb ]})).
Proof.
  apply (predict_thirty_numbers good_request
           (JObj {[ "features" := JArr good_features ]}) good_features serving
           demo_scaler demo_classifier good_input good_scaled
           0 [] 876544 123456 [] []);
    try reflexivity.
  eexists. split; reflexivity.
Defined.

Lemma predict_rejects_bad_shape_witness :
  ∃ (resp : response Z) msg,
    predict short_request serving = (inr resp, serving) ∧
    calls (predict short_request serving).2 = calls serving ∧
    body resp = JObj {[ "error" := JStr msg ]} ∧ status resp = 400.
Proof.
  destruct (predict_rejects_bad_shape short_request serving)
    as (resp & msg & Hp & Hc & Hb & _ & H400 & _).
  - right. exists (JObj {[ "features" := JArr [JInt 1; JInt 2] ]}), [JInt 1; JInt 2].
    split; [reflexivity|]. split; [|simpl; lia].
    eexists. split; reflexivity.
  - exists resp, msg. split_and!; try assumption.
    apply (H400 (JObj {[ "features" := JArr [JInt 1; JInt 2] ]}) eq_refl).
    right. right. right. exists [JInt 1; JInt 2]. split; [|simpl; lia].
    eexists. split; reflexivity.
Defined.

(** Against C2 as stated: the body [true] has no ['features'] key, and the
    answer is status 500, the membership test having raised. *)
Lemma body_without_key_is_500 :
  no_features_key true_request ∧
  ∃ resp,
    predict true_request serving = (inr resp, serving) ∧
    status resp = 500 ∧
    field resp "error" = Some (JStr "argument of type 'bool' is not iterable").
Proof.
  split.
  - right. exists (JBool true). split; [reflexivity|]. left. intros m. discriminate.
  - eexists. split; [vm_compute; reflexivity|]. split; reflexivity.
Qed.

(** Against C1 as stated: thirty numbers of which the first is [1e400]
    pass the checks and reach the scaler, whose transform refuses the
    number; the answer is status 500. *)
Lemma huge_number_is_500 :
  length huge_features = 30%nat ∧ forallb is_number huge_features = true ∧
  ∃ resp,
    predict huge_request serving
    = (inr resp, after_calls serving [Transform huge_input]) ∧
    status resp = 500 ∧
    field resp "error" = Some (JStr (exn_str too_large)).
Proof.
  split; [reflexivity|]. split; [reflexivity|].
  exists (error_500 too_large). split; [|split; reflexivity].
  vm_compute. reflexivity.
Qed.

(** Against C3 as stated: a list of length 30 with a string in it is not
    turned away by the checks; the scaler's transform is called on the
    array numpy built from it, raises, and the answer is status 500. *)
Lemma non_numeric_list_reaches_scaler :
  length mixed_features = 30%nat ∧ forallb is_number mixed_features = false ∧
  ∃ resp,
    predict mixed_request serving
    = (inr resp, after_calls serving [Transform (Obj (JArr mixed_features))]) ∧
    status resp = 500 ∧
    field resp "error" = Some (JStr (exn_str not_numeric)).
Proof.
  split; [reflexivity|]. split; [reflexivity|].
  exists (error_500 not_numeric). split; [|split; reflexivity].
  vm_compute. reflexivity.
Qed.

Lemma predict_checks_length_only_witness :
  (∃ resp cs,
     predict null_request serving
     = (inr resp, after_calls serving (Transform (Obj null_features) :: cs))) ∧
  (∀ e, scaler_transform demo_scaler (Obj null_features) = inl e →
        predict null_request serving
        = (inr (error_500 e), after_calls serving [Transform (Obj null_features)])).
Proof.
  apply (predict_checks_length_only null_request
           (JObj {[ "features" := null_features ]})
           (JNull :: replicate 29 (JInt 1)) serving demo_scaler (Obj null_features));
    try reflexivity.
  eexists. split; reflexivity.
Defined.

Lemma predict_classifies_scaled_input_witness :
  ∃ features sc clf a a' ys y ps row p0 p1,
    validated good_request features ∧
    np_array_reshape features = inr a ∧
    scaler (globals serving) = Some sc ∧ scaler_transform sc a = inr a' ∧
    model (globals serving) = Some clf ∧
    clf_predict clf a' = inr ys ∧ ys !! 0%nat = Some y ∧
    clf_predict_proba clf a' = inr ps ∧ ps !! 0%nat = Some row ∧
    row !! 0%nat = Some p0 ∧ row !! 1%nat = Some p1 ∧
    field good_answer "prediction" = Some (JInt y) ∧
    field good_answer "label"
      = Some (JStr (if Z.eqb y 1 then "Benign" else "Malignant")) ∧
    field good_answer "probabilities"
      = Some (JObj {[ "malignant" := JFloat (percent p0);
                      "benign" := JFloat (percent p1) ]}) ∧
    calls good_world = (calls serving ++ [Transform a; Predict a'; PredictProba a'])%list.
Proof.
  exact (predict_classifies_scaled_input good_request serving good_answer good_world
           good_request_answer eq_refl).
Defined.

Lemma load_model_trains_and_saves_witness :
  ∃ w', load_model fresh = (inr tt, w') ∧
        globals w' = {| model := Some demo_classifier; scaler := Some demo_scaler;
                        feature_names := Some (bunch_feature_names demo_dataset) |} ∧
        disk w' = <["scaler.pkl" := PickledScaler demo_scaler]>
                    (<["model.pkl" := PickledModel demo_classifier]> ∅).
Proof.
  exact (load_model_trains_and_saves fresh demo_X_train demo_X_test demo_Y_train
           demo_Y_test demo_scaler demo_X_train_scaled demo_X_test_scaled
           demo_classifier eq_refl eq_refl eq_refl eq_refl).
Defined.


(** The two probabilities of the demo classifier keep their order when
    scaled and rounded: 87.6544 becomes 87.65 and 12.3456 becomes 12.35. *)
Example demo_percent_keeps_order : percent_keeps_order (876544 : Z) 123456.
Proof. split; intros H; vm_compute in H |- *; by auto. Qed.

Lemma confidence_is_larger_percentage_witness :
  ∃ clf x rows p0 p1,
    model (globals serving) = Some clf ∧
    clf_predict_proba clf x = inr ([p0; p1] :: rows) ∧
    field good_answer "confidence"
      = Some (JFloat (fround (fmul (larger p0 p1) (of_int 100)) 2)) ∧
    field good_answer "probabilities"
      = Some (JObj {[ "malignant" := JFloat (percent p0);
                      "benign" := JFloat (percent p1) ]}) ∧
    (percent_keeps_order p0 p1 →
     fround (fmul (larger p0 p1) (of_int 100)) 2 = larger (percent p0) (percent p1)).
Proof.
  exact (confidence_is_larger_percentage good_request serving good_answer good_world
           demo_two_class good_request_answer eq_refl).
Defined.

Lemma features_count_is_length_witness :
  ∃ (resp : response Z) l,
    get_features serving = (inr resp, serving) ∧ status resp = 200 ∧
    field resp "features" = Some (JArr l) ∧
    field resp "count" = Some (JInt (Z.of_nat (length l))).
Proof.
  apply (features_count_is_length serving).
  apply (running_start fresh). exact startup_fresh.
Defined.

Lemma predict_reports_exception_witness :
  ∃ resp,
    predict mixed_request serving
    = (inr resp, after_calls serving [Transform (Obj (JArr mixed_features))]) ∧
    status resp = 500 ∧
    field resp "error" = Some (JStr (exn_str not_numeric)) ∧
    globals (after_calls serving [Transform (Obj (JArr mixed_features))])
    = globals serving.
Proof.
  apply (predict_reports_exception mixed_request (JArr mixed_features) serving).
  - exists (JObj {[ "features" := JArr mixed_features ]}).
    repeat split; reflexivity.
  - reflexivity.
Defined.

(** * The further properties on concrete requests *)

Example string_request_answer :
  predict string_request serving = (inr (wrong_length 3), serving).
Proof. vm_compute. reflexivity. Qed.

Example broken_load_model :
  load_model (Libraries0:=broken_libraries) fresh
  = (inl not_numeric, (load_model (Libraries0:=broken_libraries) fresh).2).
Proof. vm_compute. reflexivity. Qed.

Example load_model_fresh : load_model fresh = (inr tt, (load_model fresh).2).
Proof. vm_compute. reflexivity. Qed.

Lemma running_serving : running serving.
Proof. apply (running_start fresh). exact startup_fresh. Qed.

Lemma predict_400_inv_witness :
  serving = serving ∧
  ((wrong_length 2 : response Z) = no_features ∨
   ∃ data features n,
     get_json short_request = inr data ∧ py_getitem data "features" = inr features ∧
     py_len features = inr n ∧ n ≠ 30%nat ∧
     (wrong_length 2 : response Z) = wrong_length n).
Proof.
  exact (predict_400_inv short_request serving (wrong_length 2) serving
           short_request_answer eq_refl).
Defined.

Example accent_request_answer :
  predict accent_request serving = (inr (wrong_length 15), serving).
Proof. vm_compute. reflexivity. Qed.

Lemma predict_length_check_witness :
  ∃ resp w',
    predict accent_request serving = (inr resp, w') ∧
    (status resp = 400 ↔ 15%nat ≠ 30%nat) ∧
    (15%nat ≠ 30%nat → resp = wrong_length 15 ∧ w' = serving).
Proof.
  exact (predict_length_check accent_request
           {[ "features" := JStr "ééééééééééééééé" ]}
           (JStr "ééééééééééééééé") 15 serving eq_refl eq_refl eq_refl).
Defined.

Lemma predict_non_object_body_witness :
  ∃ resp,
    predict list_request serving = (inr resp, serving) ∧
    (resp = no_features ∨ status resp = 500) ∧
    (truthy (JArr [JStr "features"] : json Z) = true →
     py_contains "features" (JArr [JStr "features"] : json Z) ≠ inr false →
     status resp = 500).
Proof.
  apply (predict_non_object_body list_request (JArr [JStr "features"]) serving eq_refl).
  intros m. discriminate.
Defined.

Lemma predict_features_without_len_witness :
  predict none_request serving
  = (inr (error_500 (PyExn "TypeError" "object of type 'NoneType' has no len()")),
     serving).
Proof.
  exact (predict_features_without_len none_request {[ "features" := JNull ]}
           JNull serving eq_refl eq_refl I).
Defined.

Lemma answers_independent_of_history_witness :
  globals good_world = globals serving ∧ disk good_world = disk serving ∧
  ∀ ep : endpoint (F:=Z), (serve ep good_world).1 = (serve ep serving).1.
Proof.
  apply (answers_independent_of_history serving good_world).
  change good_world with (inr good_answer : result (response Z), good_world).2.
  rewrite <- good_request_answer.
  exact (served_next serving (ApiPredict good_request) serving (served_none serving)).
Defined.

Lemma running_serves_trained_estimators_witness :
  ∃ sc clf,
    trained sc clf ∧
    model (globals serving) = Some clf ∧ scaler (globals serving) = Some sc ∧
    disk serving !! "model.pkl" = Some (PickledModel clf) ∧
    disk serving !! "scaler.pkl" = Some (PickledScaler sc).
Proof. exact (running_serves_trained_estimators serving running_serving). Defined.

Lemma health_while_running_witness :
  health serving
  = (inr (jsonify {[ "status" := JStr "healthy";
                     "model_loaded" := JBool true ]} 200 : response Z), serving).
Proof. exact (health_while_running serving running_serving). Defined.

Lemma get_features_while_running_witness :
  get_features serving
  = (inr (jsonify {[ "features" := JArr (JStr <$> bunch_feature_names demo_dataset);
                     "count" := JInt 30 ]} 200 : response Z), serving).
Proof. exact (get_features_while_running serving running_serving). Defined.

Lemma load_model_failure_witness :
  let w' := (load_model (Libraries0:=broken_libraries) fresh).2 in
  disk w' = disk fresh ∧ stdout w' = stdout fresh ∧
  feature_names (globals w') = Some (bunch_feature_names demo_dataset).
Proof.
  exact (load_model_failure (Libraries0:=broken_libraries) fresh not_numeric _
           broken_load_model).
Defined.

Lemma load_model_other_files_witness :
  disk (load_model cluttered).2 !! "old.pkl" = disk cluttered !! "old.pkl".
Proof. apply (load_model_other_files cluttered "old.pkl"); discriminate. Defined.

Lemma load_model_again_witness :
  ∃ w2, load_model (load_model fresh).2 = (inr tt, w2) ∧
        globals w2 = globals (load_model fresh).2 ∧
        disk w2 = disk (load_model fresh).2.
Proof. exact (load_model_again fresh _ load_model_fresh). Defined.

Lemma confidence_is_an_entry_witness :
  ∃ c pm pb,
    field good_answer "confidence" = Some (JFloat c) ∧
    field good_answer "probabilities"
      = Some (JObj {[ "malignant" := JFloat pm; "benign" := JFloat pb ]}) ∧
    (c = pm ∨ c = pb).
Proof.
  exact (confidence_is_an_entry good_request serving good_answer good_world
           demo_two_class good_request_answer eq_refl).
Defined.


Lemma model_info_features_count_agrees_witness :
  ∃ (info : response Z) n resp w',
    model_info serving = (inr info, serving) ∧
    field info "features_count" = Some (JInt n) ∧
    predict short_request serving = (inr resp, w') ∧
    (status resp = 400 ↔ Z.of_nat (length [JInt 1; JInt 2 : json Z]) ≠ n).
Proof.
  exact (model_info_features_count_agrees short_request
           {[ "features" := JArr [JInt 1; JInt 2] ]} [JInt 1; JInt 2] serving
           eq_refl eq_refl).
Defined.

Lemma error_field_iff_failure_witness :
  (is_Some (field good_answer "error") ↔ status good_answer ≠ 200) ∧
  (is_Some (field good_answer "prediction") ↔ status good_answer = 200).
Proof.
  exact (error_field_iff_failure good_request serving good_answer good_world
           good_request_answer).
Defined.
